(** * caldp.exit_codes: the exit status registry of CALDP

    A shallow embedding of [caldp/exit_codes.py] and the verification of its
    specification.  The module is Python: its functions take any object, so
    the embedding starts with the fragment of Python's values and built-in
    operations the module relies on ([==], [in] on lists and dicts, [str],
    f-strings, [str.strip], [str.splitlines], [re.match], [int]).  *)

From Stdlib Require Import ZArith String Ascii List Bool Lia DecimalString.
From Stdlib Require Import DecimalPos DecimalZ.
Import ListNotations.

Set Warnings "-register-all".

Local Open Scope string_scope.
Local Open Scope Z_scope.

(** ** The Python run-time fragment *)

Module Py.

(** Exceptions the module can raise. *)
Inductive exn : Set :=
| TypeError       (* unhashable key in a dict operation, str + non-str *)
| KeyError        (* d[k] with k absent *)
| AssertionError  (* a failed assert *)
| AttributeError  (* None.group(...) *)
| ValueError.     (* int(s) on a string that is no integer literal *)

Inductive result (A : Type) : Type :=
| Ok (a : A)
| Raise (e : exn).
Arguments Ok {A} a.
Arguments Raise {A} e.

Definition bind {A B} (r : result A) (k : A -> result B) : result B :=
  match r with
  | Ok a => k a
  | Raise e => Raise e
  end.

Notation "x <- r ;; k" := (bind r (fun x => k))
  (at level 61, r at next level, right associativity).

Fixpoint mapM {A B} (f : A -> result B) (l : list A) : result (list B) :=
  match l with
  | [] => Ok []
  | a :: l' => b <- f a ;; bs <- mapM f l' ;; Ok (b :: bs)
  end.

(** The floats whose value is an integer of magnitude below [2**53]: a
    sign and a magnitude.  Every such integer is a double, [-0.0] included,
    and [repr] writes it in positional form, as its digits followed by
    [.0].  The other floats (fractions, larger magnitudes, infinities and
    NaN) are outside the embedding. *)
Record pyfloat : Set := mkFloat
  { float_neg : bool;
    float_mag : N;
    float_exact : (float_mag <? 9007199254740992)%N = true }.

Definition float_value (f : pyfloat) : Z :=
  if float_neg f then - Z.of_N (float_mag f) else Z.of_N (float_mag f).

(** Values: [None], booleans, integers, floats of integral value, strings
    and lists.  A string is a sequence of code points below 256 (one
    [ascii] each).  Lists stand for the unhashable objects. *)
Inductive pyval : Type :=
| PNone
| PBool (b : bool)
| PInt (z : Z)
| PFloat (f : pyfloat)
| PStr (s : string)
| PList (l : list pyval).

Definition int_of_bool (b : bool) : Z := if b then 1 else 0.

(** [x == y].  [bool] is a subclass of [int]: [True == 1], [False == 0].
    Numbers of different types are compared by value: [31.0 == 31]. *)
Fixpoint py_eq (x y : pyval) : bool :=
  match x, y with
  | PNone, PNone => true
  | PBool a, PBool b => Bool.eqb a b
  | PBool a, PInt z => int_of_bool a =? z
  | PInt z, PBool b => z =? int_of_bool b
  | PInt a, PInt b => a =? b
  | PFloat a, PFloat b => float_value a =? float_value b
  | PFloat a, PInt z => float_value a =? z
  | PInt z, PFloat b => z =? float_value b
  | PFloat a, PBool b => float_value a =? int_of_bool b
  | PBool a, PFloat b => int_of_bool a =? float_value b
  | PStr a, PStr b => String.eqb a b
  | PList a, PList b =>
      (fix all2 (a b : list pyval) : bool :=
         match a, b with
         | [], [] => true
         | x :: a', y :: b' => py_eq x y && all2 a' b'
         | _, _ => false
         end) a b
  | _, _ => false
  end.

(** [hash(x)] succeeds on everything but lists; equal values hash alike
    ([hash(31.0) == hash(31)]), so a dict finds a key exactly when some
    stored key is [==] to it. *)
Definition hashable (x : pyval) : bool :=
  match x with
  | PList _ => false
  | _ => true
  end.

(** *** Strings *)

Definition code (c : ascii) : N := N_of_ascii c.

Definition newline : ascii := ascii_of_N 10.
Definition squote : ascii := ascii_of_N 39.
Definition dquote : ascii := ascii_of_N 34.
Definition backslash : ascii := ascii_of_N 92.

(** [str(n)] for an integer: decimal digits, a leading minus sign. *)
Definition str_of_int (z : Z) : string := NilZero.string_of_int (Z.to_int z).

Definition hex_digit (n : N) : ascii :=
  if (n <? 10)%N then ascii_of_N (48 + n) else ascii_of_N (87 + n).

(** [c.isprintable()] for a code point below 256. *)
Definition is_printable (c : ascii) : bool :=
  let n := code c in
  ((32 <=? n) && (n <? 127) || (161 <=? n) && negb (n =? 173))%N.

Fixpoint str_mem (c : ascii) (s : string) : bool :=
  match s with
  | EmptyString => false
  | String c' s' => Ascii.eqb c c' || str_mem c s'
  end.

Definition repr_char (quote c : ascii) : string :=
  let n := code c in
  if Ascii.eqb c quote || Ascii.eqb c backslash then String backslash (String c EmptyString)
  else if (n =? 9)%N then String backslash "t"
  else if (n =? 10)%N then String backslash "n"
  else if (n =? 13)%N then String backslash "r"
  else if is_printable c then String c EmptyString
  else String backslash
         (String "x" (String (hex_digit (n / 16)) (String (hex_digit (n mod 16)) EmptyString))).

(** [repr(s)] for a string: single quotes, unless the string has a single
    quote and no double quote. *)
Definition repr_str (s : string) : string :=
  let quote := if str_mem squote s && negb (str_mem dquote s) then dquote else squote in
  String quote (String.concat EmptyString (map (repr_char quote) (list_ascii_of_string s))
                ++ String quote EmptyString).

Fixpoint py_repr (x : pyval) : string :=
  match x with
  | PNone => "None"
  | PBool b => if b then "True" else "False"
  | PInt z => str_of_int z
  | PFloat f =>
      (if float_neg f then "-" else EmptyString)
        ++ str_of_int (Z.of_N (float_mag f)) ++ ".0"
  | PStr s => repr_str s
  | PList l =>
      "[" ++ (fix items (l : list pyval) : string :=
                match l with
                | [] => EmptyString
                | [x] => py_repr x
                | x :: l' => py_repr x ++ ", " ++ items l'
                end) l ++ "]"
  end.

(** [str(x)], which is also what [f"{x}"] inserts. *)
Definition py_str (x : pyval) : string :=
  match x with
  | PStr s => s
  | _ => py_repr x
  end.

(** [c.isspace()], which is also the class [\s] of [re] on [str] patterns. *)
Definition is_space (c : ascii) : bool :=
  let n := code c in
  ((9 <=? n) && (n <=? 13) || (28 <=? n) && (n <=? 32) || (n =? 133) || (n =? 160))%N.

Fixpoint lstrip (s : string) : string :=
  match s with
  | EmptyString => EmptyString
  | String c s' => if is_space c then lstrip s' else s
  end.

Fixpoint rstrip (s : string) : string :=
  match s with
  | EmptyString => EmptyString
  | String c s' =>
      match rstrip s' with
      | EmptyString => if is_space c then EmptyString else String c EmptyString
      | r => String c r
      end
  end.

(** [s.strip()] *)
Definition strip (s : string) : string := rstrip (lstrip s).

(** Line boundaries of [str.splitlines] below code point 256. *)
Definition is_linebreak (c : ascii) : bool :=
  let n := code c in
  ((10 <=? n) && (n <=? 13) || (28 <=? n) && (n <=? 30) || (n =? 133))%N.

Fixpoint splitlines_from (cur : string) (s : string) : list string :=
  match s with
  | EmptyString => match cur with EmptyString => [] | _ => [cur] end
  | String c s' =>
      if is_linebreak c then
        if (code c =? 13)%N then
          match s' with
          | String c' s'' =>
              if (code c' =? 10)%N then cur :: splitlines_from EmptyString s''
              else cur :: splitlines_from EmptyString s'
          | EmptyString => cur :: splitlines_from EmptyString s'
          end
        else cur :: splitlines_from EmptyString s'
      else splitlines_from (cur ++ String c EmptyString) s'
  end.

(** [s.splitlines()] *)
Definition splitlines (s : string) : list string := splitlines_from EmptyString s.

(** [s[2:-2]] *)
Definition slice_2_m2 (s : string) : string :=
  substring 2 (String.length s - 4) s.

(** [s.startswith(p)] *)
Fixpoint startswith (s p : string) {struct p} : bool :=
  match p, s with
  | EmptyString, _ => true
  | String a p', String b s' => Ascii.eqb a b && startswith s' p'
  | _, _ => false
  end.

(** [sub in s] for strings. *)
Fixpoint str_contains (sub s : string) : bool :=
  startswith s sub ||
  match s with
  | EmptyString => false
  | String _ s' => str_contains sub s'
  end.

(** [s.lower()] below code point 256. *)
Definition lower_char (c : ascii) : ascii :=
  let n := code c in
  if ((65 <=? n) && (n <=? 90) || (192 <=? n) && (n <=? 222) && negb (n =? 215))%N
  then ascii_of_N (n + 32) else c.

Fixpoint str_lower (s : string) : string :=
  match s with
  | EmptyString => EmptyString
  | String c s' => String (lower_char c) (str_lower s')
  end.

(** [int(s)]: optional blanks around, an optional sign, decimal digits with
    single underscores between them. *)
Definition digit_of (c : ascii) : option Z :=
  let n := code c in
  if ((48 <=? n) && (n <=? 57))%N then Some (Z.of_N n - 48) else None.

Fixpoint parse_digits (acc : Z) (after_digit : bool) (s : string) : option Z :=
  match s with
  | EmptyString => if after_digit then Some acc else None
  | String c s' =>
      match digit_of c with
      | Some d => parse_digits (10 * acc + d) true s'
      | None =>
          if Ascii.eqb c "_" && after_digit then parse_digits acc false s' else None
      end
  end.

Definition py_int (s : string) : result Z :=
  let s := strip s in
  let parsed :=
    match s with
    | String "+" s' => parse_digits 0 false s'
    | String "-" s' => option_map Z.opp (parse_digits 0 false s')
    | _ => parse_digits 0 false s
    end in
  match parsed with
  | Some z => Ok z
  | None => Raise ValueError
  end.

(** *** Regular expressions

    The fragment of [re] the module uses: a pattern anchored at both ends
    that is a sequence of greedy repetitions of a character class, some of
    them captured as groups.  Matching backtracks as [re] does: every
    repetition first takes the longest run it can and gives characters back
    one at a time while the rest of the pattern fails. *)

Inductive cclass : Set :=
| NonSpace   (* \S *)
| Space      (* \s *)
| Dot.       (* .  *)

Definition in_class (k : cclass) (c : ascii) : bool :=
  match k with
  | NonSpace => negb (is_space c)
  | Space => is_space c
  | Dot => negb (Ascii.eqb c newline)
  end.

Record rep : Set := mkRep
  { rep_class : cclass;   (* the class repeated *)
    rep_min : nat;        (* 1 for +, 0 for * *)
    rep_group : bool }.   (* inside ( ) *)

Fixpoint span (k : cclass) (s : string) : nat :=
  match s with
  | EmptyString => O
  | String c s' => if in_class k c then S (span k s') else O
  end.

Fixpoint str_drop (n : nat) (s : string) : string :=
  match n, s with
  | S n', String _ s' => str_drop n' s'
  | _, _ => s
  end.

Fixpoint str_take (n : nat) (s : string) : string :=
  match n, s with
  | S n', String c s' => String c (str_take n' s')
  | _, _ => EmptyString
  end.

(** Try [n], [n-1], ..., [lo] repetitions, the first that lets the
    continuation match. *)
Fixpoint backtrack {A} (cont : nat -> option A) (lo n : nat) : option A :=
  if (n <? lo)%nat then None
  else match cont n with
       | Some r => Some r
       | None => match n with
                 | O => None
                 | S n' => backtrack cont lo n'
                 end
       end.

(** [$]: the end of the string, or just before a newline that ends it. *)
Definition at_end (s : string) : bool :=
  match s with
  | EmptyString => true
  | String c EmptyString => Ascii.eqb c newline
  | _ => false
  end.

(** [re.match("^" p "$", s)]: the groups of the match, or [None]. *)
Fixpoint re_match (p : list rep) (s : string) : option (list string) :=
  match p with
  | [] => if at_end s then Some [] else None
  | r :: p' =>
      backtrack
        (fun n =>
           match re_match p' (str_drop n s) with
           | Some groups =>
               Some (if rep_group r then str_take n s :: groups else groups)
           | None => None
           end)
        (rep_min r) (span (rep_class r) s)
  end.

(** [match.group(i)] for i >= 1, on the result of [re.match]. *)
Definition group (m : option (list string)) (i : nat) : result string :=
  match m with
  | None => Raise AttributeError
  | Some groups =>
      match nth_error groups (Nat.pred i) with
      | Some g => Ok g
      | None => Raise AttributeError
      end
  end.

(** *** Lists and dicts *)

(** [x in l] for a list: some element is [==] to [x]. *)
Definition list_contains (l : list pyval) (x : pyval) : bool :=
  existsb (py_eq x) l.

(** A dict: its items in insertion order, no two keys [==]. *)
Definition pydict : Type := list (pyval * pyval).

Fixpoint dict_find (d : pydict) (k : pyval) : option pyval :=
  match d with
  | [] => None
  | (k', v) :: d' => if py_eq k k' then Some v else dict_find d' k
  end.

(** [k in d] *)
Definition dict_contains (d : pydict) (k : pyval) : result bool :=
  if hashable k then
    Ok (match dict_find d k with Some _ => true | None => false end)
  else Raise TypeError.

(** [d[k]] *)
Definition dict_getitem (d : pydict) (k : pyval) : result pyval :=
  if hashable k then
    match dict_find d k with
    | Some v => Ok v
    | None => Raise KeyError
    end
  else Raise TypeError.

Fixpoint dict_put (d : pydict) (k v : pyval) : pydict :=
  match d with
  | [] => [(k, v)]
  | (k', v') :: d' =>
      if py_eq k k' then (k', v) :: d' else (k', v') :: dict_put d' k v
  end.

(** [d[k] = v]: a key already there keeps its place and takes the new
    value; a new key goes last. *)
Definition dict_setitem (d : pydict) (k v : pyval) : result pydict :=
  if hashable k then Ok (dict_put d k v) else Raise TypeError.

(** [dict(NAME=value, ...)] *)
Definition dict_of_kwargs (kw : list (string * pyval)) : pydict :=
  fold_left (fun d '(name, v) => dict_put d (PStr name) v) kw [].

Definition keys (d : pydict) : list pyval := map fst d.

End Py.

(** ** The module [caldp.exit_codes] *)

Import Py.

(** *** Declared data *)

Definition _MEMORY_ERROR_NAMES : list pyval :=
  [PStr "SUBPROCESS_MEMORY_ERROR"; PStr "CALDP_MEMORY_ERROR";
   PStr "CONTAINER_MEMORY_ERROR"; PStr "OS_MEMORY_ERROR"].

Definition _EXIT_CODES : pydict := dict_of_kwargs
  [("SUCCESS", PInt 0);
   ("GENERIC_ERROR", PInt 1);
   ("CMDLINE_ERROR", PInt 2);
   ("INPUT_TAR_FILE_ERROR", PInt 21);
   ("ASTROQUERY_ERROR", PInt 22);
   ("STAGE1_ERROR", PInt 23);
   ("STAGE2_ERROR", PInt 24);
   ("S3_UPLOAD_ERROR", PInt 25);
   ("S3_DOWNLOAD_ERROR", PInt 26);
   ("BESTREFS_ERROR", PInt 27);
   ("CREATE_PREVIEWS_ERROR", PInt 28);
   ("SUBPROCESS_MEMORY_ERROR", PInt 31);
   ("CALDP_MEMORY_ERROR", PInt 32);
   ("CONTAINER_MEMORY_ERROR", PInt 33);
   ("OS_MEMORY_ERROR", PInt 34);
   ("SVM_ERROR", PInt 40);
   ("MVM_ERROR", PInt 41)].

Definition _NAME_EXPLANATIONS : pydict := dict_of_kwargs
  [("SUCCESS",
      PStr "Processing completed successfully.");
   ("GENERIC_ERROR",
      PStr "An error with no specific CALDP handling occurred somewhere.");
   ("CMDLINE_ERROR",
      PStr "The program command line invocation was incorrect.");
   ("INPUT_TAR_FILE_ERROR",
      PStr "An error occurred locating or untarring the inputs tarball.");
   ("ASTROQUERY_ERROR",
      PStr "An error occurred downloading astroqery: inputs");
   ("STAGE1_ERROR",
      PStr "An error occurred in this instrument's stage1 processing step. e.g. calxxx");
   ("STAGE2_ERROR",
      PStr "An error occurred in this instrument's stage2 processing step, e.g astrodrizzle");
   ("SVM_ERROR",
      PStr "An error occurred while running runsinglehap");
   ("MVM_ERROR",
      PStr "An error occurred while running runmultihap");
   ("S3_UPLOAD_ERROR",
      PStr "An error occurred uploading the outputs tarball to S3.");
   ("S3_DOWNLOAD_ERROR",
      PStr "An error occurred downloading inputs from S3.");
   ("BESTREFS_ERROR",
      PStr "An error occurred computing or downloading CRDS reference files.");
   ("CREATE_PREVIEWS_ERROR",
      PStr "An error occurrred creating preview files for processed data.");
   ("SUBPROCESS_MEMORY_ERROR",
      PStr "A Python MemoryError was detected by scanning the process.txt log.");
   ("CALDP_MEMORY_ERROR",
      PStr "CALDP generated a Python MemoryError during processing or preview creation.");
   ("CONTAINER_MEMORY_ERROR",
      PStr "The Batch/ECS container runtime killed the job due to memory limits.");
   ("OS_MEMORY_ERROR",
      PStr "Python raised OSError(Cannot allocate memory...),  possibly fork failure.")].

(** Copied in the source from CentOS Linux's /usr/include/bits/signum.h. *)
Definition _LINUX_SIGNALS_TEXT : string := "
#define SIGHUP          1       /* Hangup (POSIX).  */
#define SIGINT          2       /* Interrupt (ANSI).  */
#define SIGQUIT         3       /* Quit (POSIX).  */
#define SIGILL          4       /* Illegal instruction (ANSI).  */
#define SIGTRAP         5       /* Trace trap (POSIX).  */
#define SIGABRT         6       /* Abort (ANSI).  */
#define SIGIOT          6       /* IOT trap (4.2 BSD).  */
#define SIGBUS          7       /* BUS error (4.2 BSD).  */
#define SIGFPE          8       /* Floating-point exception (ANSI).  */
#define SIGKILL         9       /* Kill, unblockable (POSIX).  */
#define SIGUSR1         10      /* User-defined signal 1 (POSIX).  */
#define SIGSEGV         11      /* Segmentation violation (ANSI).  */
#define SIGUSR2         12      /* User-defined signal 2 (POSIX).  */
#define SIGPIPE         13      /* Broken pipe (POSIX).  */
#define SIGALRM         14      /* Alarm clock (POSIX).  */
#define SIGTERM         15      /* Termination (ANSI).  */
#define SIGSTKFLT       16      /* Stack fault.  */
#define SIGCHLD         17      /* Child status has changed (POSIX).  */
#define SIGCONT         18      /* Continue (POSIX).  */
#define SIGSTOP         19      /* Stop, unblockable (POSIX).  */
#define SIGTSTP         20      /* Keyboard stop (POSIX).  */
#define SIGTTIN         21      /* Background read from tty (POSIX).  */
#define SIGTTOU         22      /* Background write to tty (POSIX).  */
#define SIGURG          23      /* Urgent condition on socket (4.2 BSD).  */
#define SIGXCPU         24      /* CPU limit exceeded (4.2 BSD).  */
#define SIGXFSZ         25      /* File size limit exceeded (4.2 BSD).  */
#define SIGVTALRM       26      /* Virtual alarm clock (4.2 BSD).  */
#define SIGPROF         27      /* Profiling alarm clock (4.2 BSD).  */
#define SIGWINCH        28      /* Window size change (4.3 BSD, Sun).  */
#define SIGIO           29      /* I/O now possible (4.2 BSD).  */
#define SIGPWR          30      /* Power failure restart (System V).  */
#define SIGSYS          31      /* Bad system call.  */
".

(** The pattern of the signal table: [\S+ \s+ (\S+) \s+ (\S+) \s+] and a
    third group that takes any characters up to the end of the line. *)
Definition signal_pattern : list rep :=
  [ mkRep NonSpace 1 false; mkRep Space 1 false;
    mkRep NonSpace 1 true;  mkRep Space 1 false;
    mkRep NonSpace 1 true;  mkRep Space 1 false;
    mkRep Dot 0 true ].

(** *** Module initialisation

    What the module's top level leaves behind: the constants injected into
    [globals()], [_CODE_TO_NAME] and [SIGNUM_EXPLANATION].  Of [globals()]
    the embedding keeps the part the registration loop injects, that is the
    bindings of the declared names; [module_globals] says nothing about any
    other key.  The real [globals()] binds more: the tables and functions,
    [re], the loop variables [name], [code], [line], [match], [sigid],
    [signum] and [sigtext], and a global can shadow a built-in the module
    reads.  A declared name that is one of those is rebound, or breaks the
    module, and the embedding does not follow it there:
    - [module_identifiers] are the names the registration loop itself
      reads or rebinds; for declarations that avoid them ([well_declared])
      the loop runs as [register] does;
    - [module_bindings] are all the names the module binds or reads, up to
      the end of its initialisation and in its functions; for declarations
      that avoid them and the double underscore names ([safely_declared])
      the binding the loop injects is the one [explain] and
      [is_memory_error] find in [globals()]. *)

Record module : Type := mkModule
  { module_globals : pydict;
    CODE_TO_NAME : pydict;
    SIGNUM_TABLE : pydict }.

Definition module_identifiers : list string :=
  ["name"; "code"; "globals"; "str"; "_EXIT_CODES"; "_CODE_TO_NAME";
   "_NAME_EXPLANATIONS"; "_MEMORY_ERROR_NAMES"].

Fixpoint foldM {A S} (f : S -> A -> result S) (l : list A) (s : S) : result S :=
  match l with
  | [] => Ok s
  | a :: l' => s' <- f s a ;; foldM f l' s'
  end.

Section Registry.

(** The declared tables, kept abstract so that construction can be studied
    on data other than the module's own. *)
Variables (EXIT_CODES NAME_EXPLANATIONS : pydict).
Variable (MEMORY_ERROR_NAMES : list pyval).

(** One turn of [for (name, code) in _EXIT_CODES.items()]. *)
Definition register (st : pydict * pydict) (item : pyval * pyval)
  : result (pydict * pydict) :=
  let '(globals, code_to_name) := st in
  let '(name, code) := item in
  globals <- dict_setitem globals name code ;;
  code_to_name <- dict_setitem code_to_name code name ;;
  code_to_name <- dict_setitem code_to_name (PStr (py_str code)) name ;;
  declared <- dict_contains NAME_EXPLANATIONS name ;;
  if declared : bool then Ok (globals, code_to_name) else Raise AssertionError.

Definition build_registry : result (pydict * pydict) :=
  foldM register EXIT_CODES ([], []).

(** [explain], on an initialised module. *)
Definition explain_in (m : module) (exit_code : pyval) : result string :=
  by_code <- dict_contains (CODE_TO_NAME m) exit_code ;;
  if by_code : bool then
    name <- dict_getitem (CODE_TO_NAME m) exit_code ;;
    explanation <- dict_getitem NAME_EXPLANATIONS name ;;
    Ok ("EXIT - " ++ py_str name ++ "[" ++ py_str exit_code ++ "]: "
          ++ py_str explanation)
  else
    by_name <- dict_contains NAME_EXPLANATIONS exit_code ;;
    if by_name : bool then
      let name := exit_code in
      exit_code <- dict_getitem (module_globals m) name ;;
      explanation <- dict_getitem NAME_EXPLANATIONS name ;;
      Ok ("EXIT - " ++ py_str name ++ "[" ++ py_str exit_code ++ "]: "
            ++ py_str explanation)
    else Ok ("EXIT - unhandled exit code: " ++ py_str exit_code).

(** [is_memory_error], on an initialised module. *)
Definition is_memory_error_in (m : module) (exit_code : pyval) : result bool :=
  codes <- mapM (dict_getitem (module_globals m)) MEMORY_ERROR_NAMES ;;
  Ok (list_contains codes exit_code
      || list_contains MEMORY_ERROR_NAMES exit_code).

End Registry.

(** One turn of [for line in _LINUX_SIGNALS_TEXT.strip().splitlines()]. *)
Definition register_signal (table : pydict) (line : string) : result pydict :=
  let m := re_match signal_pattern line in
  sigid <- group m 1 ;;
  number <- group m 2 ;;
  signum <- py_int number ;;
  comment <- group m 3 ;;
  let sigtext := strip (slice_2_m2 comment) in
  dict_setitem table (PInt signum)
    (PStr ("Killed by UNIX signal " ++ sigid ++ "[" ++ py_str (PInt signum)
             ++ "]: '" ++ sigtext ++ "'")).

Definition build_signals (text : string) : result pydict :=
  foldM register_signal (splitlines (strip text)) [].

(** Importing the module: the exit code loop, then the signal loop. *)
Definition import_module : result module :=
  registry <- build_registry _EXIT_CODES _NAME_EXPLANATIONS ;;
  signals <- build_signals _LINUX_SIGNALS_TEXT ;;
  Ok (mkModule (fst registry) (snd registry) signals).

Definition _CODE_TO_NAME : result pydict :=
  m <- import_module ;; Ok (CODE_TO_NAME m).

Definition SIGNUM_EXPLANATION : result pydict :=
  m <- import_module ;; Ok (SIGNUM_TABLE m).

(** *** The module's functions *)

Definition explain (exit_code : pyval) : result string :=
  m <- import_module ;; explain_in _NAME_EXPLANATIONS m exit_code.

Definition is_memory_error (exit_code : pyval) : result bool :=
  m <- import_module ;; is_memory_error_in _MEMORY_ERROR_NAMES m exit_code.

(** ["EXIT - " + v] *)
Definition str_add (s : string) (v : pyval) : result string :=
  match v with
  | PStr t => Ok (s ++ t)
  | _ => Raise TypeError
  end.

Definition explain_signal_in (m : module) (signum : pyval) : result string :=
  entry <- dict_getitem (SIGNUM_TABLE m) signum ;;
  str_add "EXIT - " entry.

Definition explain_signal (signum : pyval) : result string :=
  m <- import_module ;; explain_signal_in m signum.

(** ** Vocabulary of the specification *)

(** The eight inputs the classifier accepts. *)
Definition memory_error_forms : list pyval :=
  [PInt 31; PInt 32; PInt 33; PInt 34;
   PStr "SUBPROCESS_MEMORY_ERROR"; PStr "CALDP_MEMORY_ERROR";
   PStr "CONTAINER_MEMORY_ERROR"; PStr "OS_MEMORY_ERROR"].

(** The float [31.0]. *)
Definition float_31 : pyval := PFloat (mkFloat false 31 eq_refl).

(** The keys of [_CODE_TO_NAME] as the loop inserts them: every declared
    value and its [str]. *)
Definition declared_values : list pyval :=
  flat_map (fun item => [snd item; PStr (py_str (snd item))]) _EXIT_CODES.

Definition declared_names : list pyval := keys _EXIT_CODES.

(** A declaration as the source writes them: a name that is none of the
    module's own identifiers, bound to an integer. *)
Definition well_declared (item : pyval * pyval) : Prop :=
  exists (name : string) (value : Z),
    item = (PStr name, PInt value) /\ ~ In name module_identifiers.

(** Every name the module binds at its top level (its import, tables,
    loop variables and functions), and the built-ins it reads. *)
Definition module_bindings : list string :=
  ["re"; "_MEMORY_ERROR_NAMES"; "_EXIT_CODES"; "_NAME_EXPLANATIONS";
   "_CODE_TO_NAME"; "name"; "code"; "explain"; "is_memory_error";
   "_LINUX_SIGNALS_TEXT"; "SIGNUM_EXPLANATION"; "line"; "match"; "sigid";
   "signum"; "sigtext"; "explain_signal"; "test";
   "dict"; "globals"; "str"; "int"; "print"; "AssertionError"].

(** A name the module uses for itself, or one of the double underscore
    names of a module ([__name__], [__builtins__], ...). *)
Definition reserved (name : string) : bool :=
  existsb (String.eqb name) module_bindings || startswith name "__".

(** A declaration whose binding nothing else in the module touches. *)
Definition safely_declared (item : pyval * pyval) : Prop :=
  exists (name : string) (value : Z),
    item = (PStr name, PInt value) /\ reserved name = false.

(** [name in _NAME_EXPLANATIONS] for the name of a declaration. *)
Definition has_explanation (E : pydict) (item : pyval * pyval) : bool :=
  match dict_find E (fst item) with
  | Some _ => true
  | None => false
  end.

(** The line the table stores for a signal, as the loop formats it. *)
Definition signal_entry (sigid : string) (signum : Z) (sigtext : string)
  : string :=
  "Killed by UNIX signal " ++ sigid ++ "[" ++ py_str (PInt signum) ++ "]: '"
    ++ sigtext ++ "'".

Definition signal_numbers : list Z := map Z.of_nat (seq 1 31).

(** The value of the last item of [l] whose key is [==] to [k]: what a
    dict holds under [k] once the items have been stored in that order. *)
Fixpoint last_binding (l : pydict) (k : pyval) : option pyval :=
  match l with
  | [] => None
  | (k', v) :: l' =>
      match last_binding l' k with
      | Some v' => Some v'
      | None => if py_eq k k' then Some v else None
      end
  end.

(** The assignments to [_CODE_TO_NAME] the loop makes, in order. *)
Definition code_insertions (codes : pydict) : pydict :=
  flat_map (fun item => [(snd item, fst item);
                         (PStr (py_str (snd item)), fst item)]) codes.

(** Every key of a dict is hashable. *)
Definition keys_hashable (d : pydict) : Prop :=
  Forall (fun item => hashable (fst item) = true) d.

(** Every character of [s] satisfies [p]. *)
Fixpoint str_forall (p : ascii -> bool) (s : string) : bool :=
  match s with
  | EmptyString => true
  | String c s' => p c && str_forall p s'
  end.

(** A non-empty run of characters of the class [k]. *)
Definition is_run (k : cclass) (s : string) : bool :=
  match s with
  | EmptyString => false
  | _ => str_forall (in_class k) s
  end.

(** ** Facts about the run-time fragment *)

Section RuntimeFacts.

Lemma py_eq_str_inv (x : pyval) (s : string) :
  py_eq x (PStr s) = true -> x = PStr s.
Proof.
  destruct x; simpl; try discriminate.
  intros H. apply String.eqb_eq in H. now subst.
Qed.

Lemma py_eq_int_inv (x : pyval) (z : Z) :
  py_eq x (PInt z) = true ->
  x = PInt z \/ (exists b, x = PBool b /\ int_of_bool b = z)
  \/ (exists f, x = PFloat f /\ float_value f = z).
Proof.
  destruct x; simpl; try discriminate; intros H; apply Z.eqb_eq in H.
  - right. left. now exists b.
  - left. now subst.
  - right. right. now exists f.
Qed.

Lemma list_contains_false_iff (l : list pyval) (x : pyval) :
  list_contains l x = false <-> forall k, In k l -> py_eq x k = false.
Proof.
  unfold list_contains. induction l as [|a l IH]; simpl.
  - split; [intros _ k [] | reflexivity].
  - rewrite orb_false_iff, IH. split.
    + intros [Ha Hl] k [<-|Hk]; auto.
    + intros H. split; [apply H; now left | intros k Hk; apply H; now right].
Qed.

Lemma list_contains_incl (l l' : list pyval) (x : pyval) :
  incl l' l -> list_contains l x = false -> list_contains l' x = false.
Proof.
  intros Hincl H. rewrite list_contains_false_iff in *. auto.
Qed.

Lemma dict_find_none (d : pydict) (k : pyval) :
  list_contains (keys d) k = false -> dict_find d k = None.
Proof.
  unfold list_contains, keys.
  induction d as [|[k' v] d IH]; simpl; [reflexivity|].
  destruct (py_eq k k'); simpl; [discriminate | exact IH].
Qed.

Lemma dict_find_some (d : pydict) (k v : pyval) :
  dict_find d k = Some v -> exists k', In (k', v) d /\ py_eq k k' = true.
Proof.
  induction d as [|[k' v'] d IH]; simpl; [discriminate|].
  destruct (py_eq k k') eqn:E.
  - intros [= <-]. exists k'. auto.
  - intros H. destruct (IH H) as (k0 & Hin & Hk). exists k0. auto.
Qed.

Lemma startswith_app (a b : string) : startswith (a ++ b) a = true.
Proof.
  induction a as [|c a IH]; simpl; [reflexivity|].
  now rewrite Ascii.eqb_refl.
Qed.

Lemma startswith_split (a s : string) :
  startswith s a = true -> exists b, s = a ++ b.
Proof.
  revert s. induction a as [|c a IH]; intros s; simpl.
  - intros _. now exists s.
  - destruct s as [|c' s]; [discriminate|].
    rewrite andb_true_iff, Ascii.eqb_eq. intros [<- H].
    destruct (IH _ H) as [b ->]. now exists b.
Qed.

(** [str_contains] decides the substring relation. *)
Lemma str_contains_spec (sub s : string) :
  str_contains sub s = true <-> exists pre post, s = pre ++ sub ++ post.
Proof.
  split.
  - induction s as [|c s IH]; simpl; rewrite orb_true_iff.
    + intros [H|H]; [|discriminate].
      destruct (startswith_split _ _ H) as [b Hb]. now exists EmptyString, b.
    + intros [H|H].
      * destruct (startswith_split _ _ H) as [b Hb]. now exists EmptyString, b.
      * destruct (IH H) as (pre & post & ->). now exists (String c pre), post.
  - intros (pre & post & ->). induction pre as [|c pre IH]; simpl.
    + assert (H : forall t, startswith t sub = true -> str_contains sub t = true)
        by (intros [|c t] Ht; simpl; now rewrite Ht).
      apply H, startswith_app.
    + rewrite IH. apply orb_true_r.
Qed.

Lemma str_contains_app (pre sub post : string) :
  str_contains sub (pre ++ sub ++ post) = true.
Proof. apply str_contains_spec. now exists pre, post. Qed.

End RuntimeFacts.

(** ** The initialised module *)

(** The examples of the docstrings. *)
Example explain_doctests :
  explain (PInt 0) = Ok "EXIT - SUCCESS[0]: Processing completed successfully."
  /\ explain (PStr "SUCCESS")
     = Ok "EXIT - SUCCESS[0]: Processing completed successfully."
  /\ explain (PInt 1)
     = Ok ("EXIT - GENERIC_ERROR[1]: "
             ++ "An error with no specific CALDP handling occurred somewhere.")
  /\ explain (PInt 31)
     = Ok ("EXIT - SUBPROCESS_MEMORY_ERROR[31]: "
             ++ "A Python MemoryError was detected by scanning the process.txt log.")
  /\ explain (PInt 999) = Ok "EXIT - unhandled exit code: 999".
Proof. vm_compute. repeat split. Qed.

Example is_memory_error_doctests :
  is_memory_error (PInt 1) = Ok false
  /\ is_memory_error (PInt 31) = Ok true
  /\ is_memory_error (PInt 32) = Ok true
  /\ is_memory_error (PInt 33) = Ok true
  /\ is_memory_error (PStr "GENERIC_ERROR") = Ok false
  /\ is_memory_error (PStr "SUBPROCESS_MEMORY_ERROR") = Ok true.
Proof. vm_compute. repeat split. Qed.

(** [bool] is a subclass of [int]: [True] finds the key 1, and is printed
    as it is. *)
Example explain_True :
  explain (PBool true)
  = Ok ("EXIT - GENERIC_ERROR[True]: "
          ++ "An error with no specific CALDP handling occurred somewhere.").
Proof. reflexivity. Qed.

(** Numbers are looked up by value: the float [31.0] finds the key 31,
    and is printed as it is. *)
Example explain_float :
  explain float_31
  = Ok ("EXIT - SUBPROCESS_MEMORY_ERROR[31.0]: "
          ++ "A Python MemoryError was detected by scanning the process.txt log.").
Proof. reflexivity. Qed.

(** Runs the module's top level inside a goal about one of its functions. *)
Ltac run_import :=
  unfold explain, is_memory_error, explain_signal, _CODE_TO_NAME,
    SIGNUM_EXPLANATION;
  let r := fresh "r" in
  set (r := import_module); vm_compute in r; subst r; cbn [bind].

(** Closes [In x l] on a list written out. *)
Ltac in_list := simpl; repeat (first [left; reflexivity | right]).

(** *** The memory error classifier *)

Lemma is_memory_error_eval (x : pyval) :
  is_memory_error x = Ok (list_contains memory_error_forms x).
Proof.
  run_import. unfold is_memory_error_in. cbn [mapM bind _MEMORY_ERROR_NAMES].
  vm_compute mapM.
  unfold memory_error_forms.
  change [PInt 31; PInt 32; PInt 33; PInt 34;
          PStr "SUBPROCESS_MEMORY_ERROR"; PStr "CALDP_MEMORY_ERROR";
          PStr "CONTAINER_MEMORY_ERROR"; PStr "OS_MEMORY_ERROR"]
    with ([PInt 31; PInt 32; PInt 33; PInt 34] ++ _MEMORY_ERROR_NAMES)%list.
  unfold list_contains. now rewrite existsb_app.
Qed.

Lemma memory_error_forms_eq (x : pyval) :
  list_contains memory_error_forms x = true <->
  exists k, In k memory_error_forms /\ py_eq x k = true.
Proof. unfold list_contains. apply existsb_exists. Qed.

(** What [==] to a memory error code amounts to for a number of value [v]. *)
Lemma memory_error_value (x : pyval) (v : Z) :
  (forall z, py_eq x (PInt z) = (v =? z)) ->
  (forall s, py_eq x (PStr s) = false) ->
  list_contains memory_error_forms x = true <-> 31 <= v <= 34.
Proof.
  intros Hint Hstr. unfold list_contains, memory_error_forms.
  cbn [existsb]. rewrite !Hint, !Hstr, !orb_false_r, !orb_true_iff, !Z.eqb_eq.
  lia.
Qed.

(** C1, as stated, fails on the float [31.0]: it is none of the four
    integers and none of the four names, and it is classified as a memory
    error, because membership in a list is decided by [==]. *)
Lemma is_memory_error_float_counterexample :
  ~ In float_31 memory_error_forms /\
  is_memory_error float_31 = Ok true /\
  ~ (forall x : pyval,
        (In x memory_error_forms -> is_memory_error x = Ok true) /\
        (~ In x memory_error_forms -> is_memory_error x = Ok false)).
Proof.
  assert (Hn : ~ In float_31 memory_error_forms)
    by (simpl; intuition discriminate).
  split; [exact Hn|]. split; [reflexivity|].
  intros H. destruct (H float_31) as [_ Hf]. specialize (Hf Hn).
  vm_compute in Hf. discriminate Hf.
Qed.

(** C1, amended.  [is_memory_error] never raises; it returns [True] exactly
    on the inputs that are [==] to one of the integers 31, 32, 33, 34 or to
    one of the four memory error names: the integers and the floats of
    value 31 to 34 and the four names as they are written.  On every other
    input, the booleans, [None] and the lists among them, it returns
    [False]. *)
Theorem is_memory_error_by_equality :
  (forall x : pyval,
      exists b, is_memory_error x = Ok b /\
                (b = true <->
                 exists k, In k memory_error_forms /\ py_eq x k = true)) /\
  (forall z : Z, is_memory_error (PInt z) = Ok true <-> 31 <= z <= 34) /\
  (forall f : pyfloat,
      is_memory_error (PFloat f) = Ok true <-> 31 <= float_value f <= 34) /\
  (forall s : string,
      is_memory_error (PStr s) = Ok true <-> In (PStr s) _MEMORY_ERROR_NAMES) /\
  (forall b : bool, is_memory_error (PBool b) = Ok false) /\
  is_memory_error PNone = Ok false /\
  (forall l : list pyval, is_memory_error (PList l) = Ok false).
Proof.
  assert (Hok : forall x b, is_memory_error x = Ok b <->
                            list_contains memory_error_forms x = b).
  { intros x b. rewrite is_memory_error_eval.
    split; [intros [= H]; exact H | intros H; now rewrite H]. }
  split; [|split; [|split; [|split; [|split; [|split]]]]].
  - intros x. exists (list_contains memory_error_forms x).
    split; [apply is_memory_error_eval | apply memory_error_forms_eq].
  - intros z. rewrite Hok. apply (memory_error_value (PInt z) z); reflexivity.
  - intros f. rewrite Hok.
    apply (memory_error_value (PFloat f) (float_value f)); reflexivity.
  - intros s. rewrite Hok, memory_error_forms_eq. split.
    + intros (k & Hk & Heq). simpl in Hk.
      repeat (destruct Hk as [<-|Hk]; [try discriminate Heq|]);
        try contradiction;
        apply py_eq_str_inv in Heq; injection Heq as ->; in_list.
    + intros H. exists (PStr s). split.
      * simpl in H |- *. tauto.
      * simpl. apply String.eqb_refl.
  - intros b. rewrite is_memory_error_eval. now destruct b.
  - apply is_memory_error_eval.
  - intros l. apply is_memory_error_eval.
Qed.

(** C9.  The stringified value of a memory error code is not classified as a
    memory error: [is_memory_error("31")] is [False], and so on. *)
Theorem is_memory_error_stringified_value :
  Forall (fun v => is_memory_error (PStr (py_str (PInt v))) = Ok false
                   /\ is_memory_error (PInt v) = Ok true
                   /\ explain (PStr (py_str (PInt v))) = explain (PInt v))
         [31; 32; 33; 34].
Proof.
  repeat (apply Forall_cons; [vm_compute; repeat split |]).
  apply Forall_nil.
Qed.

(** *** [explain] *)

Section ExplainIn.

Variables (E : pydict) (m : module).

Lemma explain_in_unhashable (x : pyval) :
  hashable x = false -> explain_in E m x = Raise TypeError.
Proof.
  intros H. unfold explain_in, dict_contains. now rewrite H.
Qed.

(** A key of [_CODE_TO_NAME] is resolved there, whether or not it is a
    name with an explanation as well. *)
Lemma explain_in_value_first (x name : pyval) :
  hashable x = true ->
  dict_find (CODE_TO_NAME m) x = Some name ->
  explain_in E m x =
    (explanation <- dict_getitem E name ;;
     Ok ("EXIT - " ++ py_str name ++ "[" ++ py_str x ++ "]: "
           ++ py_str explanation)).
Proof.
  intros Hx Hf. unfold explain_in, dict_contains, dict_getitem at 1.
  now rewrite Hx, Hf.
Qed.

(** Anything else is looked up as a name, its value taken from the
    module's globals. *)
Lemma explain_in_name_second (x : pyval) :
  hashable x = true ->
  dict_find (CODE_TO_NAME m) x = None ->
  dict_find E x <> None ->
  explain_in E m x =
    (value <- dict_getitem (module_globals m) x ;;
     explanation <- dict_getitem E x ;;
     Ok ("EXIT - " ++ py_str x ++ "[" ++ py_str value ++ "]: "
           ++ py_str explanation)).
Proof.
  intros Hx Hf He. unfold explain_in, dict_contains.
  rewrite Hx, Hf. cbn [bind].
  destruct (dict_find E x); [reflexivity | contradiction].
Qed.

Lemma explain_in_unknown (x : pyval) :
  hashable x = true ->
  list_contains (keys (CODE_TO_NAME m)) x = false ->
  list_contains (keys E) x = false ->
  explain_in E m x = Ok ("EXIT - unhandled exit code: " ++ py_str x).
Proof.
  intros Hx Hc He. unfold explain_in, dict_contains.
  now rewrite Hx, (dict_find_none _ _ Hc), (dict_find_none _ _ He).
Qed.

End ExplainIn.

(** Splits [In (PStr name, PInt value) _EXIT_CODES] into the seventeen
    declarations. *)
Ltac each_declaration H :=
  vm_compute in H;
  repeat (destruct H as [H|H]; [injection H as <- <- |]);
  [.. | contradiction].

(** C2.  For every declared pair, the integer, its string and the name are
    explained by the same line. *)
Theorem explain_forms_agree (name : string) (value : Z) :
  In (PStr name, PInt value) _EXIT_CODES ->
  exists line,
    explain (PInt value) = Ok line /\
    explain (PStr (py_str (PInt value))) = Ok line /\
    explain (PStr name) = Ok line.
Proof.
  intros H. each_declaration H; eexists; vm_compute; repeat split.
Qed.

Lemma explain_forms_agree_witness :
  In (PStr "CALDP_MEMORY_ERROR", PInt 32) _EXIT_CODES /\
  exists line,
    explain (PInt 32) = Ok line /\
    explain (PStr "32") = Ok line /\
    explain (PStr "CALDP_MEMORY_ERROR") = Ok line.
Proof.
  assert (H : In (PStr "CALDP_MEMORY_ERROR", PInt 32) _EXIT_CODES)
    by (vm_compute; in_list).
  split; [exact H | exact (explain_forms_agree "CALDP_MEMORY_ERROR" 32 H)].
Defined.

(** C5.  For every declared code, with its name, value and explanation:
    the integer and its string are keys of [_CODE_TO_NAME] (the first
    lookup), the name is not and is resolved by the second lookup, and each
    of the three yields exactly [EXIT - <NAME>[<value>]: <explanation>].
    Names are matched as they are written: the lower-case spelling of a
    declared name is unhandled. *)
Theorem explain_declared_code (name explanation : string) (value : Z) :
  In (PStr name, PInt value) _EXIT_CODES ->
  In (PStr name, PStr explanation) _NAME_EXPLANATIONS ->
  let line := "EXIT - " ++ name ++ "[" ++ py_str (PInt value) ++ "]: "
                ++ explanation in
  (exists table,
      _CODE_TO_NAME = Ok table /\
      dict_getitem table (PInt value) = Ok (PStr name) /\
      dict_getitem table (PStr (py_str (PInt value))) = Ok (PStr name) /\
      dict_contains table (PStr name) = Ok false /\
      dict_contains _NAME_EXPLANATIONS (PStr name) = Ok true) /\
  explain (PInt value) = Ok line /\
  explain (PStr (py_str (PInt value))) = Ok line /\
  explain (PStr name) = Ok line /\
  explain (PStr (str_lower name))
    = Ok ("EXIT - unhandled exit code: " ++ str_lower name).
Proof.
  intros H He. each_declaration H;
    vm_compute in He;
    repeat (destruct He as [He|He]; [try discriminate He|]);
    try contradiction;
    injection He as <-;
    (split; [eexists; vm_compute; repeat split | vm_compute; repeat split]).
Qed.

Lemma explain_declared_code_witness :
  explain (PInt 0) = Ok "EXIT - SUCCESS[0]: Processing completed successfully."
  /\ explain (PStr "0") = Ok "EXIT - SUCCESS[0]: Processing completed successfully."
  /\ explain (PStr "SUCCESS")
     = Ok "EXIT - SUCCESS[0]: Processing completed successfully."
  /\ explain (PStr "success") = Ok "EXIT - unhandled exit code: success".
Proof.
  assert (H : In (PStr "SUCCESS", PInt 0) _EXIT_CODES)
    by (vm_compute; in_list).
  assert (He : In (PStr "SUCCESS", PStr "Processing completed successfully.")
                  _NAME_EXPLANATIONS)
    by (vm_compute; in_list).
  exact (proj2 (explain_declared_code
                  "SUCCESS" "Processing completed successfully." 0 H He)).
Defined.

(** C3, as stated, fails on the empty list: it is no declared value, no
    string of one and no declared name, and [explain] raises on it. *)
Lemma explain_unknown_counterexample :
  list_contains declared_values (PList []) = false /\
  list_contains declared_names (PList []) = false /\
  explain (PList []) = Raise TypeError /\
  ~ (forall x : pyval,
        list_contains declared_values x = false ->
        list_contains declared_names x = false ->
        exists line, explain x = Ok line
                     /\ str_contains "unhandled exit code" line = true).
Proof.
  split; [reflexivity|]. split; [reflexivity|]. split; [reflexivity|].
  intros H. destruct (H (PList [])) as (line & Hl & _); try reflexivity.
  vm_compute in Hl. discriminate Hl.
Qed.

(** C3, amended.  A hashable input that is [==] to no declared value, to no
    string of a declared value and to no declared name is explained as
    [EXIT - unhandled exit code: <input>], which contains "unhandled exit
    code"; an unhashable input makes the lookup in [_CODE_TO_NAME] raise
    [TypeError]. *)
Theorem explain_unknown (x : pyval) :
  list_contains declared_values x = false ->
  list_contains declared_names x = false ->
  (hashable x = true ->
   explain x = Ok ("EXIT - unhandled exit code: " ++ py_str x) /\
   str_contains "unhandled exit code"
     ("EXIT - unhandled exit code: " ++ py_str x) = true) /\
  (hashable x = false -> explain x = Raise TypeError).
Proof.
  intros Hv Hn. split; intros Hx.
  - split.
    + run_import. apply explain_in_unknown; [exact Hx | exact Hv |].
      refine (list_contains_incl _ _ _ _ Hn).
      intros k Hk. vm_compute in Hk |- *.
      repeat (destruct Hk as [<-|Hk]; [in_list|]). contradiction.
    + apply (str_contains_app "EXIT - " "unhandled exit code").
  - run_import. now apply explain_in_unhashable.
Qed.

Lemma explain_unknown_witness :
  explain (PInt 999) = Ok "EXIT - unhandled exit code: 999" /\
  explain (PStr "Success") = Ok "EXIT - unhandled exit code: Success" /\
  explain PNone = Ok "EXIT - unhandled exit code: None" /\
  explain (PList [PInt 1]) = Raise TypeError.
Proof.
  split; [|split; [|split]].
  - apply (explain_unknown (PInt 999)); reflexivity.
  - apply (explain_unknown (PStr "Success")); reflexivity.
  - apply (explain_unknown PNone); reflexivity.
  - apply (explain_unknown (PList [PInt 1])); reflexivity.
Defined.

(** *** The registry *)




Lemma register_well_declared (E : pydict) (st : pydict * pydict)
      (item : pyval * pyval) :
  well_declared item ->
  if has_explanation E item
  then exists st', register E st item = Ok st'
  else register E st item = Raise AssertionError.
Proof.
  intros (name & value & -> & _). destruct st as [globals code_to_name].
  unfold register, has_explanation, dict_setitem, dict_contains. simpl.
  destruct (dict_find E (PStr name)); [eexists|]; reflexivity.
Qed.

Lemma foldM_register (E : pydict) (codes : pydict) :
  Forall well_declared codes ->
  forall st,
    if forallb (has_explanation E) codes
    then exists st', foldM (register E) codes st = Ok st'
    else foldM (register E) codes st = Raise AssertionError.
Proof.
  induction 1 as [|item codes Hitem _ IH]; intros st; simpl.
  - now exists st.
  - pose proof (register_well_declared E st item Hitem) as Hr.
    destruct (has_explanation E item); simpl.
    + destruct Hr as [st' ->]. simpl. apply IH.
    + now rewrite Hr.
Qed.

(** C8, as stated, fails on two names declared with the value 1, each with
    its explanation: construction completes, and [_CODE_TO_NAME] keeps the
    second name only. *)
Lemma build_registry_counterexample :
  build_registry
    (dict_of_kwargs [("FIRST", PInt 1); ("SECOND", PInt 1)])
    (dict_of_kwargs [("FIRST", PStr "one"); ("SECOND", PStr "two")])
  = Ok ([(PStr "FIRST", PInt 1); (PStr "SECOND", PInt 1)],
        [(PInt 1, PStr "SECOND"); (PStr "1", PStr "SECOND")]).
Proof. reflexivity. Qed.

(** C8, amended.  Construction fails with [AssertionError] when some
    declared name has no explanation, and completes when every declared
    name has one. *)
Theorem build_registry_checks (codes E : pydict) :
  Forall well_declared codes ->
  (forallb (has_explanation E) codes = false ->
   build_registry codes E = Raise AssertionError) /\
  (forallb (has_explanation E) codes = true ->
   exists st, build_registry codes E = Ok st).
Proof.
  intros H. pose proof (foldM_register E codes H ([], [])) as Hf.
  unfold build_registry.
  destruct (forallb (has_explanation E) codes); split; intros Hb;
    solve [exact Hf | discriminate Hb].
Qed.

Lemma build_registry_checks_witness :
  build_registry (dict_of_kwargs [("FIRST", PInt 1); ("SECOND", PInt 2)])
                 (dict_of_kwargs [("FIRST", PStr "one")])
  = Raise AssertionError /\
  exists st, build_registry _EXIT_CODES _NAME_EXPLANATIONS = Ok st.
Proof.
  split.
  - apply (build_registry_checks
             (dict_of_kwargs [("FIRST", PInt 1); ("SECOND", PInt 2)])
             (dict_of_kwargs [("FIRST", PStr "one")])); [|reflexivity].
    vm_compute dict_of_kwargs.
    repeat (apply Forall_cons;
            [eexists _, _; split; [reflexivity|];
             simpl; intuition discriminate|]).
    apply Forall_nil.
  - apply (build_registry_checks _EXIT_CODES _NAME_EXPLANATIONS);
      [|reflexivity].
    vm_compute _EXIT_CODES.
    repeat (apply Forall_cons;
            [eexists _, _; split; [reflexivity|];
             simpl; intuition discriminate|]).
    apply Forall_nil.
Defined.

(** *** The signal table *)

Lemma signal_numbers_range (z : Z) : In z signal_numbers <-> 1 <= z <= 31.
Proof.
  unfold signal_numbers. rewrite in_map_iff. split.
  - intros (n & <- & Hn). apply in_seq in Hn. lia.
  - intros Hz. exists (Z.to_nat z). split; [lia|]. apply in_seq. lia.
Qed.

Lemma signum_table_keys :
  exists table,
    SIGNUM_EXPLANATION = Ok table /\ keys table = map PInt signal_numbers.
Proof. eexists. split; vm_compute; reflexivity. Qed.

Lemma explain_signal_eval (x : pyval) :
  exists table,
    keys table = map PInt signal_numbers /\
    explain_signal x = explain_signal_in (mkModule [] [] table) x /\
    Forall (fun item => exists line, snd item = PStr line) table.
Proof.
  eexists. split; [|split].
  2: { run_import. unfold explain_signal_in. cbn [SIGNUM_TABLE]. reflexivity. }
  - vm_compute. reflexivity.
  - repeat (apply Forall_cons; [eexists; reflexivity|]). apply Forall_nil.
Qed.

(** C4.  On an integer outside 1..31 [explain_signal] raises [KeyError]. *)
Theorem explain_signal_out_of_range (z : Z) :
  z < 1 \/ 31 < z -> explain_signal (PInt z) = Raise KeyError.
Proof.
  intros Hz. destruct (explain_signal_eval (PInt z)) as (table & Hk & -> & _).
  unfold explain_signal_in, dict_getitem. cbn [SIGNUM_TABLE hashable].
  rewrite dict_find_none; [reflexivity|].
  rewrite Hk. apply list_contains_false_iff.
  intros k Hin. apply in_map_iff in Hin. destruct Hin as (n & <- & Hn).
  apply signal_numbers_range in Hn. simpl. apply Z.eqb_neq. lia.
Qed.

Lemma explain_signal_out_of_range_witness :
  explain_signal (PInt 0) = Raise KeyError /\
  explain_signal (PInt 99) = Raise KeyError /\
  explain_signal (PInt (-9)) = Raise KeyError.
Proof.
  split; [|split].
  - apply (explain_signal_out_of_range 0). left. reflexivity.
  - apply (explain_signal_out_of_range 99). right. reflexivity.
  - apply (explain_signal_out_of_range (-9)). left. reflexivity.
Defined.

(** C6.  [explain_signal(8)] and [explain_signal(11)] are the lines of
    SIGFPE and SIGSEGV, each in the form
    [EXIT - Killed by UNIX signal <SIGNAME>[<signum>]: '<description>']. *)
Theorem explain_signal_examples :
  exists line8 line11,
    explain_signal (PInt 8) = Ok line8 /\
    explain_signal (PInt 11) = Ok line11 /\
    line8 = "EXIT - " ++ signal_entry "SIGFPE" 8 "Floating-point exception (ANSI)." /\
    line11 = "EXIT - " ++ signal_entry "SIGSEGV" 11 "Segmentation violation (ANSI)." /\
    line8 = "EXIT - Killed by UNIX signal SIGFPE[8]: 'Floating-point exception (ANSI).'" /\
    line11 = "EXIT - Killed by UNIX signal SIGSEGV[11]: 'Segmentation violation (ANSI).'" /\
    str_contains "SIGFPE[8]" line8 = true /\
    str_contains "Floating-point exception" line8 = true /\
    str_contains "SIGSEGV[11]" line11 = true /\
    str_contains "Segmentation violation" line11 = true.
Proof. do 2 eexists. vm_compute. repeat split. Qed.

(** C10.  The table has exactly the keys 1, ..., 31; [explain_signal]
    returns a line exactly on the inputs [==] to one of them; and the entry
    of 6 is the one of SIGIOT, declared after SIGABRT. *)
Theorem signal_table_domain :
  exists table,
    SIGNUM_EXPLANATION = Ok table /\
    keys table = map PInt signal_numbers /\
    (forall z : Z,
        (exists line, explain_signal (PInt z) = Ok line) <-> 1 <= z <= 31) /\
    (forall x : pyval,
        (exists line, explain_signal x = Ok line) <->
        (exists z, 1 <= z <= 31 /\ py_eq x (PInt z) = true)) /\
    dict_getitem table (PInt 6)
      = Ok (PStr (signal_entry "SIGIOT" 6 "IOT trap (4.2 BSD).")) /\
    explain_signal (PInt 6)
      = Ok "EXIT - Killed by UNIX signal SIGIOT[6]: 'IOT trap (4.2 BSD).'" /\
    Forall (fun item => str_contains "SIGABRT" (py_str (snd item)) = false) table.
Proof.
  assert (Hx : forall x : pyval,
             (exists line, explain_signal x = Ok line) <->
             (exists z, 1 <= z <= 31 /\ py_eq x (PInt z) = true)).
  { intros x. destruct (explain_signal_eval x) as (table & Hk & -> & Hv).
    unfold explain_signal_in, dict_getitem. cbn [SIGNUM_TABLE]. split.
    - intros [line H]. destruct (hashable x); [|discriminate].
      destruct (dict_find table x) as [v|] eqn:E; [|discriminate].
      apply dict_find_some in E. destruct E as (k & Hin & Heq).
      assert (Hkk : In k (keys table)) by (apply in_map_iff; now exists (k, v)).
      rewrite Hk in Hkk. apply in_map_iff in Hkk. destruct Hkk as (z & <- & Hz).
      exists z. split; [now apply signal_numbers_range | exact Heq].
    - intros (z & Hz & Heq).
      assert (Hh : hashable x = true)
        by (destruct (py_eq_int_inv _ _ Heq)
              as [->|[(b & -> & _)|(f & -> & _)]]; reflexivity).
      rewrite Hh.
      destruct (dict_find table x) as [v|] eqn:E.
      + apply dict_find_some in E. destruct E as (k & Hin & _).
        rewrite Forall_forall in Hv. destruct (Hv _ Hin) as [line Hl].
        simpl in Hl. subst v. eexists. reflexivity.
      + exfalso.
        assert (Hc : list_contains (keys table) x = true).
        { unfold list_contains. apply existsb_exists. exists (PInt z).
          split; [|exact Heq]. rewrite Hk. apply in_map.
          now apply signal_numbers_range. }
        clear Hv Hk. induction table as [|[k v] table IH]; [discriminate|].
        simpl in E, Hc. destruct (py_eq x k); [discriminate|]. auto. }
  eexists. split; [vm_compute; reflexivity|].
  split; [vm_compute; reflexivity|].
  split; [|split; [exact Hx|]].
  - intros z. rewrite Hx. split.
    + intros (z' & Hz & Heq). simpl in Heq. apply Z.eqb_eq in Heq. now subst.
    + intros Hz. exists z. split; [exact Hz|]. simpl. apply Z.eqb_refl.
  - split; [vm_compute; reflexivity|]. split; [vm_compute; reflexivity|].
    repeat (apply Forall_cons; [vm_compute; reflexivity|]). apply Forall_nil.
Qed.


(** ** Further properties of the module *)

(** *** Dicts *)

Section DictFacts.

Lemma py_eq_sym (x y : pyval) :
  hashable x = true -> hashable y = true -> py_eq x y = py_eq y x.
Proof.
  destruct x, y; simpl; intros; try reflexivity; try discriminate;
    first [apply Z.eqb_sym | apply String.eqb_sym | now destruct b, b0].
Qed.

Lemma py_eq_trans (x y z : pyval) :
  hashable x = true -> hashable y = true -> hashable z = true ->
  py_eq x y = true -> py_eq y z = true -> py_eq x z = true.
Proof.
  destruct x, y, z; simpl; intros Hx Hy Hz;
    try discriminate Hx; try discriminate Hy; try discriminate Hz;
    clear Hx Hy Hz; try discriminate; try reflexivity;
    rewrite ?Z.eqb_eq, ?String.eqb_eq, ?Bool.eqb_true_iff;
    intros; subst; try reflexivity; try congruence;
    repeat match goal with b : bool |- _ => destruct b end;
    simpl in *; try reflexivity; try discriminate; try lia.
Qed.

Lemma dict_find_put (d : pydict) (k v k' : pyval) :
  keys_hashable d -> hashable k = true -> hashable k' = true ->
  dict_find (dict_put d k v) k'
  = if py_eq k' k then Some v else dict_find d k'.
Proof.
  intros Hd Hk Hk'. induction Hd as [|[k0 v0] d Hk0 _ IH]; simpl in *.
  - reflexivity.
  - destruct (py_eq k k0) eqn:E; simpl.
    + destruct (py_eq k' k0) eqn:E0.
      * rewrite py_eq_sym in E by assumption.
        now rewrite (py_eq_trans k' k0 k).
      * destruct (py_eq k' k) eqn:E1; [|reflexivity].
        now rewrite (py_eq_trans k' k k0) in E0.
    + rewrite IH. destruct (py_eq k' k0) eqn:E0; [|reflexivity].
      destruct (py_eq k' k) eqn:E1; [|reflexivity].
      rewrite py_eq_sym in E1 by assumption.
      now rewrite (py_eq_trans k k' k0) in E.
Qed.

Lemma dict_put_keys_hashable (d : pydict) (k v : pyval) :
  keys_hashable d -> hashable k = true -> keys_hashable (dict_put d k v).
Proof.
  intros Hd Hk. induction Hd as [|[k0 v0] d Hk0 Hd IH]; simpl.
  - now repeat constructor.
  - destruct (py_eq k k0); constructor; assumption.
Qed.

Lemma last_binding_app (a b : pydict) (k : pyval) :
  last_binding (a ++ b)%list k
  = match last_binding b k with
    | Some v => Some v
    | None => last_binding a k
    end.
Proof.
  induction a as [|[k0 v0] a IH]; simpl.
  - now destruct (last_binding b k).
  - rewrite IH. now destruct (last_binding b k).
Qed.

End DictFacts.

(** *** Registry construction on any declarations *)

Lemma register_well_declared_eq (E : pydict) (st : pydict * pydict)
      (name : string) (value : Z) :
  register E st (PStr name, PInt value)
  = if has_explanation E (PStr name, PInt value)
    then Ok (dict_put (fst st) (PStr name) (PInt value),
             dict_put (dict_put (snd st) (PInt value) (PStr name))
                      (PStr (py_str (PInt value))) (PStr name))
    else Raise AssertionError.
Proof.
  destruct st as [globals code_to_name].
  unfold register, has_explanation, dict_setitem, dict_contains. simpl.
  now destruct (dict_find E (PStr name)).
Qed.

Lemma foldM_register_lookup (E codes : pydict) :
  Forall well_declared codes ->
  forall st0 st,
    keys_hashable (fst st0) -> keys_hashable (snd st0) ->
    foldM (register E) codes st0 = Ok st ->
    forall k, hashable k = true ->
      dict_find (fst st) k
      = match last_binding codes k with
        | Some v => Some v
        | None => dict_find (fst st0) k
        end /\
      dict_find (snd st) k
      = match last_binding (code_insertions codes) k with
        | Some v => Some v
        | None => dict_find (snd st0) k
        end.
Proof.
  induction 1 as [|item codes Hitem _ IH]; intros st0 st Hg Hc Hrun k Hk.
  - simpl in Hrun. injection Hrun as <-. now split.
  - destruct Hitem as (name & value & -> & _).
    simpl in Hrun. rewrite register_well_declared_eq in Hrun.
    destruct (has_explanation E (PStr name, PInt value)); [|discriminate].
    simpl in Hrun.
    apply IH with (k := k) in Hrun; try assumption; cbn [fst snd] in *.
    + destruct Hrun as [-> ->]. split.
      * rewrite dict_find_put by (assumption || reflexivity).
        cbn [last_binding].
        destruct (last_binding codes k); [reflexivity|].
        now destruct (py_eq k (PStr name)).
      * cbn [code_insertions flat_map fst snd app py_str py_repr].
        change (flat_map _ codes) with (code_insertions codes).
        change ((PInt value, PStr name)
                  :: (PStr (str_of_int value), PStr name)
                  :: code_insertions codes)
          with ([(PInt value, PStr name);
                 (PStr (str_of_int value), PStr name)]
                  ++ code_insertions codes)%list.
        rewrite last_binding_app.
        destruct (last_binding (code_insertions codes) k); [reflexivity|].
        rewrite !dict_find_put;
          try (assumption || reflexivity
               || (apply dict_put_keys_hashable; [assumption|reflexivity])).
        cbn [last_binding].
        destruct (py_eq k (PStr (str_of_int value))); [reflexivity|].
        now destruct (py_eq k (PInt value)).
    + now apply dict_put_keys_hashable.
    + apply dict_put_keys_hashable; [|reflexivity].
      now apply dict_put_keys_hashable.
Qed.

Lemma build_registry_lookup (codes E : pydict) (st : pydict * pydict) :
  Forall well_declared codes ->
  build_registry codes E = Ok st ->
  forall k, hashable k = true ->
    dict_find (fst st) k = last_binding codes k /\
    dict_find (snd st) k = last_binding (code_insertions codes) k.
Proof.
  intros Hw Hrun k Hk.
  destruct (foldM_register_lookup E codes Hw ([], []) st
              (Forall_nil _) (Forall_nil _) Hrun k Hk) as [-> ->].
  now destruct (last_binding codes k),
               (last_binding (code_insertions codes) k).
Qed.

Lemma safely_declared_well_declared (item : pyval * pyval) :
  safely_declared item -> well_declared item.
Proof.
  intros (name & value & -> & Hr). exists name, value. split; [reflexivity|].
  intros Hin. simpl in Hin.
  repeat (destruct Hin as [<-|Hin]; [discriminate Hr|]). exact Hin.
Qed.

(** X1.  After a construction that completes, [globals()] holds under every
    declared name the value of its last declaration. *)
Theorem build_registry_globals (codes E : pydict) (st : pydict * pydict) :
  Forall safely_declared codes ->
  build_registry codes E = Ok st ->
  forall (name : string) (value : pyval),
    last_binding codes (PStr name) = Some value ->
    dict_find (fst st) (PStr name) = Some value.
Proof.
  intros Hs Hrun name value Hl.
  assert (Hw : Forall well_declared codes)
    by (revert Hs; apply Forall_impl, safely_declared_well_declared).
  now rewrite (proj1 (build_registry_lookup codes E st Hw Hrun
                        (PStr name) eq_refl)).
Qed.

(** X2.  After a construction that completes, [_CODE_TO_NAME] holds under
    every declared value, and under its string, the name declared last with
    that value: of two names that share a value only the later one can be
    found. *)
Theorem build_registry_code_to_name (codes E : pydict)
        (st : pydict * pydict) :
  Forall well_declared codes ->
  build_registry codes E = Ok st ->
  forall k, hashable k = true ->
    dict_find (snd st) k = last_binding (code_insertions codes) k.
Proof.
  intros Hw Hrun k Hk. apply (build_registry_lookup codes E st Hw Hrun k Hk).
Qed.

(** Closes [Forall well_declared l] on declarations written out. *)
Ltac well_declared_list :=
  repeat (apply Forall_cons;
          [eexists _, _; split; [reflexivity|];
           simpl; intuition discriminate|]);
  apply Forall_nil.

(** Closes [Forall safely_declared l] on declarations written out. *)
Ltac safely_declared_list :=
  repeat (apply Forall_cons;
          [eexists _, _; split; reflexivity|]);
  apply Forall_nil.

Lemma build_registry_globals_witness :
  dict_find [(PStr "FIRST", PInt 1); (PStr "SECOND", PInt 2)] (PStr "SECOND")
  = Some (PInt 2).
Proof.
  apply (build_registry_globals
           [(PStr "FIRST", PInt 1); (PStr "SECOND", PInt 2)]
           [(PStr "FIRST", PStr "one"); (PStr "SECOND", PStr "two")]
           ([(PStr "FIRST", PInt 1); (PStr "SECOND", PInt 2)],
            [(PInt 1, PStr "FIRST"); (PStr "1", PStr "FIRST");
             (PInt 2, PStr "SECOND"); (PStr "2", PStr "SECOND")])
           ltac:(safely_declared_list) eq_refl "SECOND" (PInt 2)).
  reflexivity.
Defined.

Lemma build_registry_code_to_name_witness :
  dict_find [(PInt 1, PStr "SECOND"); (PStr "1", PStr "SECOND")] (PInt 1)
  = last_binding
      (code_insertions [(PStr "FIRST", PInt 1); (PStr "SECOND", PInt 1)])
      (PInt 1).
Proof.
  apply (build_registry_code_to_name
           [(PStr "FIRST", PInt 1); (PStr "SECOND", PInt 1)]
           [(PStr "FIRST", PStr "one"); (PStr "SECOND", PStr "two")]
           ([(PStr "FIRST", PInt 1); (PStr "SECOND", PInt 1)],
            [(PInt 1, PStr "SECOND"); (PStr "1", PStr "SECOND")])).
  - well_declared_list.
  - reflexivity.
  - reflexivity.
Defined.

(** *** The classifier on any module *)

Lemma mapM_getitem_missing (g : pydict) (names : list pyval) :
  Forall (fun n => hashable n = true) names ->
  Exists (fun n => dict_find g n = None) names ->
  mapM (dict_getitem g) names = Raise KeyError.
Proof.
  induction 1 as [|n names Hn _ IH]; intros Hex.
  - inversion Hex.
  - simpl. unfold dict_getitem at 1. rewrite Hn.
    destruct (dict_find g n) eqn:E; [|reflexivity].
    simpl. rewrite IH; [reflexivity|].
    inversion Hex; subst; [congruence | assumption].
Qed.

(** X3.  The classifier reads the constant of every memory error name
    before it looks at its argument: when one of the names is no global of
    the module, it raises [KeyError] on every input, the names it would
    accept included. *)
Theorem is_memory_error_in_missing_constant
        (names : list pyval) (m : module) (x : pyval) :
  Forall (fun n => hashable n = true) names ->
  Exists (fun n => dict_find (module_globals m) n = None) names ->
  is_memory_error_in names m x = Raise KeyError.
Proof.
  intros Hh Hex. unfold is_memory_error_in.
  now rewrite mapM_getitem_missing.
Qed.

Lemma is_memory_error_in_missing_constant_witness :
  is_memory_error_in [PStr "OS_MEMORY_ERROR"; PStr "GPU_MEMORY_ERROR"]
    (mkModule [(PStr "OS_MEMORY_ERROR", PInt 34)] [] [])
    (PStr "OS_MEMORY_ERROR")
  = Raise KeyError.
Proof.
  apply is_memory_error_in_missing_constant.
  - repeat constructor.
  - apply Exists_cons_tl, Exists_cons_hd. reflexivity.
Defined.

(** X4.  For every declared code the integer and the name are classified
    alike, and the codes classified as memory errors are the declared
    values from 31 to 34. *)
Theorem is_memory_error_forms_agree (name : string) (value : Z) :
  In (PStr name, PInt value) _EXIT_CODES ->
  is_memory_error (PStr name) = is_memory_error (PInt value) /\
  is_memory_error (PInt value) = Ok ((31 <=? value) && (value <=? 34)).
Proof.
  intros H. each_declaration H; vm_compute; split; reflexivity.
Qed.

Lemma is_memory_error_forms_agree_witness :
  is_memory_error (PStr "SVM_ERROR") = is_memory_error (PInt 40) /\
  is_memory_error (PInt 40) = Ok ((31 <=? 40) && (40 <=? 34)).
Proof.
  apply (is_memory_error_forms_agree "SVM_ERROR" 40).
  vm_compute. in_list.
Defined.

(** *** [explain_signal] on other inputs *)


(** *** [explain] on every hashable input *)

Lemma str_of_int_inj (a b : Z) : str_of_int a = str_of_int b -> a = b.
Proof.
  assert (Hnz : forall z, Z.to_int z <> Decimal.Pos Decimal.Nil
                          /\ Z.to_int z <> Decimal.Neg Decimal.Nil).
  { intros [|p|p]; simpl; split; try discriminate;
      intros [= H]; now apply (DecimalPos.Unsigned.to_uint_nonnil p). }
  unfold str_of_int. intros H.
  apply (f_equal NilZero.int_of_string) in H.
  rewrite !NilZero.isi in H by apply Hnz.
  injection H as H. now apply DecimalZ.to_int_inj.
Qed.

Lemma explain_unknown_eq (x : pyval) :
  hashable x = true ->
  list_contains declared_values x = false ->
  list_contains declared_names x = false ->
  explain x = Ok ("EXIT - unhandled exit code: " ++ py_str x).
Proof.
  intros Hx Hv Hn. run_import.
  apply explain_in_unknown; [exact Hx | exact Hv |].
  refine (list_contains_incl _ _ _ _ Hn).
  intros k Hk. vm_compute in Hk |- *.
  repeat (destruct Hk as [<-|Hk]; [in_list|]). contradiction.
Qed.

(** Reads off the sign and the magnitude of a float whose value is a
    given numeral. *)
Ltac float_at Hf :=
  match type of Hf with
  | float_value ?f = _ =>
      let neg := fresh "neg" in
      let m := fresh "m" in
      let Hm := fresh "Hm" in
      destruct f as [neg m Hm];
      unfold float_value in Hf; cbn [float_neg float_mag] in Hf;
      destruct neg;
      [ first [ exfalso; lia | assert (m = 0%N) by lia; subst m ]
      | apply (f_equal Z.to_N) in Hf; rewrite N2Z.id in Hf;
        vm_compute in Hf; subst m ]
  end.

(** The inputs that are [==] to a key of [_CODE_TO_NAME]: the keys, the
    booleans for 0 and 1, and the floats of a declared value. *)
Lemma declared_value_forms (x : pyval) :
  list_contains declared_values x = true ->
  In x (PBool false :: PBool true :: declared_values) \/
  exists f c, x = PFloat f /\ float_value f = c /\ In (PInt c) declared_values.
Proof.
  unfold list_contains. rewrite existsb_exists.
  intros (k & Hk & Heq). vm_compute in Hk.
  repeat (destruct Hk as [<-|Hk];
          [first [ apply py_eq_str_inv in Heq; subst x; left;
                   vm_compute; in_list
                 | apply py_eq_int_inv in Heq;
                   destruct Heq as [->|[([|] & -> & Hb)|(f & -> & Hf)]];
                   first [ discriminate Hb
                         | right; exists f; eexists;
                           split; [reflexivity|]; split; [exact Hf|];
                           vm_compute; in_list
                         | left; vm_compute; in_list ] ]|]).
  contradiction.
Qed.

Lemma declared_name_forms (x : pyval) :
  list_contains declared_names x = true -> In x declared_names.
Proof.
  unfold list_contains. rewrite existsb_exists.
  intros (k & Hk & Heq). vm_compute in Hk.
  repeat (destruct Hk as [<-|Hk];
          [apply py_eq_str_inv in Heq; subst x; vm_compute; in_list|]).
  contradiction.
Qed.

Lemma explain_hashable_cases (x : pyval) :
  hashable x = true ->
  exists line,
    explain x = Ok line /\
    startswith line "EXIT - " = true /\
    str_contains "unhandled exit code" line
    = negb (list_contains declared_values x || list_contains declared_names x).
Proof.
  intros Hx.
  destruct (list_contains declared_values x) eqn:Ev.
  - apply declared_value_forms in Ev. run_import.
    destruct Ev as [Ev|(f & c & -> & Hf & Hc)].
    + vm_compute in Ev.
      repeat (destruct Ev as [<-|Ev];
              [eexists; vm_compute; repeat split|]).
      contradiction.
    + vm_compute in Hc.
      repeat (destruct Hc as [Hc|Hc];
              [first [ discriminate Hc
                     | injection Hc as <-; float_at Hf;
                       eexists; vm_compute; repeat split ]|]).
      contradiction.
  - destruct (list_contains declared_names x) eqn:En.
    + apply declared_name_forms in En. vm_compute in En. run_import.
      repeat (destruct En as [<-|En];
              [eexists; vm_compute; repeat split|]).
      contradiction.
    + eexists. split; [now apply explain_unknown_eq|].
      split; [reflexivity|].
      apply (str_contains_app "EXIT - " "unhandled exit code").
Qed.

(** X6.  On a hashable input [explain] returns: no lookup it makes can
    raise [KeyError], and the line it returns starts with "EXIT - ". *)
Theorem explain_returns_on_hashable (x : pyval) :
  hashable x = true ->
  exists line, explain x = Ok line /\ startswith line "EXIT - " = true.
Proof.
  intros Hx. destruct (explain_hashable_cases x Hx) as (line & H1 & H2 & _).
  exists line. split; assumption.
Qed.

Lemma explain_returns_on_hashable_witness :
  exists line,
    explain (PBool false) = Ok line /\ startswith line "EXIT - " = true.
Proof. apply (explain_returns_on_hashable (PBool false)). reflexivity. Defined.

(** X7.  The line [explain] returns is the "unhandled exit code" one
    exactly when the input is [==] to no declared value, to no string of
    one and to no declared name: no declared code is reported as
    unhandled. *)
Theorem explain_unhandled_iff (x : pyval) (line : string) :
  explain x = Ok line ->
  (str_contains "unhandled exit code" line = true <->
   list_contains declared_values x = false /\
   list_contains declared_names x = false).
Proof.
  intros H.
  assert (Hx : hashable x = true).
  { destruct x; try reflexivity. vm_compute in H. discriminate H. }
  destruct (explain_hashable_cases x Hx) as (line' & H1 & _ & H3).
  rewrite H in H1. injection H1 as <-. rewrite H3.
  rewrite negb_true_iff, orb_false_iff. reflexivity.
Qed.

Lemma explain_unhandled_iff_witness :
  str_contains "unhandled exit code"
    "EXIT - GENERIC_ERROR[True]: An error with no specific CALDP handling occurred somewhere."
  = true <->
  list_contains declared_values (PBool true) = false /\
  list_contains declared_names (PBool true) = false.
Proof. apply (explain_unhandled_iff (PBool true)). reflexivity. Defined.

Lemma declared_int (z : Z) :
  list_contains declared_values (PInt z) = true ->
  In z [0; 1; 2; 21; 22; 23; 24; 25; 26; 27; 28; 31; 32; 33; 34; 40; 41].
Proof.
  unfold list_contains. rewrite existsb_exists.
  intros (k & Hk & Heq). vm_compute in Hk.
  repeat (destruct Hk as [<-|Hk];
          [first [ discriminate Heq
                 | apply Z.eqb_eq in Heq; subst z; in_list ]|]).
  contradiction.
Qed.

(** X8.  Two integers with the same explanation are the same integer: the
    line [explain] returns identifies the exit code. *)
Theorem explain_int_injective (a b : Z) :
  explain (PInt a) = explain (PInt b) -> a = b.
Proof.
  assert (Hu : forall z,
             list_contains declared_values (PInt z) = false ->
             explain (PInt z)
             = Ok ("EXIT - unhandled exit code: " ++ str_of_int z)).
  { intros z Hz. now apply (explain_unknown_eq (PInt z)). }
  intros H.
  destruct (list_contains declared_values (PInt a)) eqn:Ea;
    destruct (list_contains declared_values (PInt b)) eqn:Eb.
  - apply declared_int in Ea, Eb.
    unfold explain in H. set (r := import_module) in H.
    vm_compute in r. subst r. cbn [bind] in H.
    match type of H with
    | explain_in ?E ?m _ = _ =>
        set (line := fun z => match explain_in E m (PInt z) with
                              | Ok s => s
                              | Raise _ => EmptyString
                              end);
        assert (Hl : line a = line b) by (unfold line; now rewrite H)
    end.
    match type of Ea with
    | In _ ?ints =>
        assert (Hd : forallb
                       (fun u => forallb
                                   (fun v => (u =? v)
                                             || negb (String.eqb (line u) (line v)))
                                   ints) ints = true)
          by (vm_compute; reflexivity)
    end.
    rewrite forallb_forall in Hd. specialize (Hd a Ea).
    rewrite forallb_forall in Hd. specialize (Hd b Eb).
    rewrite Hl, String.eqb_refl, orb_false_r in Hd.
    now apply Z.eqb_eq.
  - rewrite (Hu b Eb) in H. apply declared_int in Ea. simpl in Ea.
    repeat (destruct Ea as [<-|Ea];
            [set (r := explain _) in H; vm_compute in r; subst r;
             cbn [append] in H; discriminate H|]).
    contradiction.
  - rewrite (Hu a Ea) in H. apply declared_int in Eb. simpl in Eb.
    repeat (destruct Eb as [<-|Eb];
            [set (r := explain _) in H; vm_compute in r; subst r;
             cbn [append] in H; discriminate H|]).
    contradiction.
  - rewrite (Hu a Ea), (Hu b Eb) in H. cbn [append] in H.
    injection H as H. now apply str_of_int_inj.
Qed.

Lemma explain_int_injective_witness :
  explain (PInt 7) = explain (PInt 7) /\ 7 = 7.
Proof.
  split; [reflexivity|]. apply (explain_int_injective 7 7). reflexivity.
Defined.

(** *** Parsing a line of the signal text *)

Section RegexFacts.

Lemma append_empty_r (s : string) : s ++ EmptyString = s.
Proof. induction s as [|c s IH]; simpl; [reflexivity | now rewrite IH]. Qed.

Lemma str_drop_app (w t : string) : str_drop (String.length w) (w ++ t) = t.
Proof. induction w as [|c w IH]; simpl; [now destruct t | exact IH]. Qed.

Lemma str_take_app (w t : string) : str_take (String.length w) (w ++ t) = w.
Proof.
  induction w as [|c w IH]; simpl; [now destruct t | now rewrite IH].
Qed.

Lemma span_run (k : cclass) (w t : string) :
  str_forall (in_class k) w = true -> span k t = O ->
  span k (w ++ t) = String.length w.
Proof.
  intros Hw Ht. induction w as [|c w IH]; simpl in *; [exact Ht|].
  apply andb_true_iff in Hw. destruct Hw as [-> Hw]. now rewrite IH.
Qed.

(** A run of another class stops the span at once. *)
Lemma span_stopped (k k' : cclass) (s t : string) :
  is_run k' s = true ->
  (forall c, in_class k' c = true -> in_class k c = false) ->
  span k (s ++ t) = O.
Proof.
  destruct s as [|c s]; simpl; [discriminate|].
  intros H Hk. apply andb_true_iff in H. destruct H as [Hc _].
  now rewrite (Hk c Hc).
Qed.

Lemma is_run_forall (k : cclass) (s : string) :
  is_run k s = true -> str_forall (in_class k) s = true.
Proof. now destruct s. Qed.

Lemma is_run_length (k : cclass) (s : string) :
  is_run k s = true -> (1 <= String.length s)%nat.
Proof. destruct s; simpl; [discriminate | lia]. Qed.

Lemma backtrack_first {A} (cont : nat -> option A) (lo n : nat) (r : A) :
  (lo <= n)%nat -> cont n = Some r -> backtrack cont lo n = Some r.
Proof.
  intros Hlo Hc.
  destruct n; cbn [backtrack];
    match goal with
    | |- context [(?a <? ?b)%nat] => destruct (Nat.ltb_spec a b); [lia|]
    end;
    now rewrite Hc.
Qed.

Lemma backtrack_none {A} (cont : nat -> option A) (lo n : nat) :
  (forall i, cont i = None) -> backtrack cont lo n = None.
Proof.
  intros Hc. induction n as [|n IH]; cbn [backtrack]; rewrite Hc.
  - now destruct (O <? lo)%nat.
  - rewrite IH. now destruct (S n <? lo)%nat.
Qed.

(** One repetition of the pattern takes a whole run when the rest of the
    pattern matches what follows it. *)
Lemma re_match_run (r : rep) (p : list rep) (w t : string)
      (groups : list string) :
  str_forall (in_class (rep_class r)) w = true ->
  span (rep_class r) t = O ->
  (rep_min r <= String.length w)%nat ->
  re_match p t = Some groups ->
  re_match (r :: p) (w ++ t)
  = Some (if rep_group r then w :: groups else groups).
Proof.
  intros Hw Ht Hmin Hp. cbn [re_match].
  rewrite (span_run _ _ _ Hw Ht).
  apply backtrack_first; [exact Hmin|].
  now rewrite str_drop_app, Hp, str_take_app.
Qed.

End RegexFacts.

Lemma space_not_nonspace (c : ascii) :
  in_class Space c = true -> in_class NonSpace c = false.
Proof. simpl. now intros ->. Qed.

Lemma nonspace_not_space (c : ascii) :
  in_class NonSpace c = true -> in_class Space c = false.
Proof. simpl. now destruct (is_space c). Qed.

(** The pattern on a line of three words and a comment: the second and the
    third word and the comment are the groups. *)
Lemma re_match_signal_line (w1 s1 w2 s2 w3 s3 rest : string) :
  is_run NonSpace w1 = true -> is_run Space s1 = true ->
  is_run NonSpace w2 = true -> is_run Space s2 = true ->
  is_run NonSpace w3 = true -> is_run Space s3 = true ->
  str_forall (in_class Dot) rest = true -> span Space rest = O ->
  re_match signal_pattern (w1 ++ s1 ++ w2 ++ s2 ++ w3 ++ s3 ++ rest)
  = Some [w2; w3; rest].
Proof.
  intros H1 B1 H2 B2 H3 B3 Hr Hs. unfold signal_pattern.
  rewrite <- (append_empty_r rest) at 1.
  rewrite (re_match_run _ _ w1 _ [w2; w3; rest]); cbn [rep_class rep_min rep_group];
    [reflexivity | now apply is_run_forall
    | now apply (span_stopped _ Space), space_not_nonspace
    | now apply (is_run_length NonSpace) |].
  rewrite (re_match_run _ _ s1 _ [w2; w3; rest]); cbn [rep_class rep_min rep_group];
    [reflexivity | now apply is_run_forall
    | now apply (span_stopped _ NonSpace), nonspace_not_space
    | now apply (is_run_length Space) |].
  rewrite (re_match_run _ _ w2 _ [w3; rest]); cbn [rep_class rep_min rep_group];
    [reflexivity | now apply is_run_forall
    | now apply (span_stopped _ Space), space_not_nonspace
    | now apply (is_run_length NonSpace) |].
  rewrite (re_match_run _ _ s2 _ [w3; rest]); cbn [rep_class rep_min rep_group];
    [reflexivity | now apply is_run_forall
    | now apply (span_stopped _ NonSpace), nonspace_not_space
    | now apply (is_run_length Space) |].
  rewrite (re_match_run _ _ w3 _ [rest]); cbn [rep_class rep_min rep_group];
    [reflexivity | now apply is_run_forall
    | now apply (span_stopped _ Space), space_not_nonspace
    | now apply (is_run_length NonSpace) |].
  rewrite (re_match_run _ _ s3 _ [rest]); cbn [rep_class rep_min rep_group];
    [reflexivity | now apply is_run_forall
    | now rewrite append_empty_r
    | now apply (is_run_length Space) |].
  rewrite (re_match_run _ _ rest _ []); cbn [rep_class rep_min rep_group];
    [reflexivity | assumption | reflexivity | lia | reflexivity].
Qed.

(** X9.  A line made of three words and a comment, separated by blanks, is
    registered under the integer its third word reads as, with the second
    word as the signal name and the comment, stripped of its first and last
    two characters and of the blanks around, as the description.  When the
    third word is no integer the line raises [ValueError]. *)
Theorem register_signal_well_formed
        (table : pydict) (w1 s1 sigid s2 number s3 comment : string) :
  is_run NonSpace w1 = true -> is_run Space s1 = true ->
  is_run NonSpace sigid = true -> is_run Space s2 = true ->
  is_run NonSpace number = true -> is_run Space s3 = true ->
  str_forall (in_class Dot) comment = true -> span Space comment = O ->
  register_signal table (w1 ++ s1 ++ sigid ++ s2 ++ number ++ s3 ++ comment)
  = match py_int number with
    | Ok signum =>
        Ok (dict_put table (PInt signum)
              (PStr (signal_entry sigid signum (strip (slice_2_m2 comment)))))
    | Raise e => Raise e
    end.
Proof.
  intros H1 B1 H2 B2 H3 B3 Hr Hs. unfold register_signal.
  rewrite re_match_signal_line by assumption. cbn [group nth_error Nat.pred bind].
  unfold py_int.
  destruct (match strip number with
            | String "+" s' => parse_digits 0 false s'
            | String "-" s' => option_map Z.opp (parse_digits 0 false s')
            | _ => parse_digits 0 false (strip number)
            end); reflexivity.
Qed.

Lemma register_signal_well_formed_witness :
  register_signal [] "#define SIGRTMIN 34 /* First real-time signal.  */"
  = Ok [(PInt 34,
         PStr "Killed by UNIX signal SIGRTMIN[34]: 'First real-time signal.'")]
  /\
  register_signal [] "#define SIGRTMAX __SIGRTMAX /* Last real-time signal.  */"
  = Raise ValueError.
Proof.
  split.
  - apply (register_signal_well_formed
             [] "#define" " " "SIGRTMIN" " " "34" " "
             "/* First real-time signal.  */"); reflexivity.
  - apply (register_signal_well_formed
             [] "#define" " " "SIGRTMAX" " " "__SIGRTMAX" " "
             "/* Last real-time signal.  */"); reflexivity.
Defined.

Lemma str_forall_drop (p : ascii -> bool) (n : nat) (s : string) :
  str_forall p s = true -> str_forall p (str_drop n s) = true.
Proof.
  revert s. induction n as [|n IH]; intros [|c s] H; simpl; try exact H.
  simpl in H. apply andb_true_iff in H. now apply IH.
Qed.

(** X10.  A line without any blank, the empty line included, does not
    match the pattern, and registering it raises [AttributeError]. *)
Theorem register_signal_no_blank (table : pydict) (line : string) :
  str_forall (in_class NonSpace) line = true ->
  register_signal table line = Raise AttributeError.
Proof.
  intros H. unfold register_signal.
  assert (Hm : re_match signal_pattern line = None).
  { unfold signal_pattern. cbn [re_match]. apply backtrack_none.
    intros i. cbn [rep_class rep_min].
    assert (Hs : span Space (str_drop i line) = O).
    { pose proof (str_forall_drop _ i _ H) as Hd.
      destruct (str_drop i line) as [|c s]; [reflexivity|].
      simpl in Hd |- *. apply andb_true_iff in Hd. destruct Hd as [Hc _].
      now destruct (is_space c). }
    now rewrite Hs. }
  now rewrite Hm.
Qed.

Lemma register_signal_no_blank_witness :
  register_signal [] EmptyString = Raise AttributeError /\
  register_signal [] "#define" = Raise AttributeError.
Proof.
  split.
  - apply (register_signal_no_blank [] EmptyString). reflexivity.
  - apply (register_signal_no_blank [] "#define"). reflexivity.
Defined.

(** *** [explain] on any registry the loop builds *)

Lemma build_registry_explained (codes E : pydict) (st : pydict * pydict) :
  Forall well_declared codes ->
  build_registry codes E = Ok st ->
  forallb (has_explanation E) codes = true.
Proof.
  intros Hw Hrun. pose proof (foldM_register E codes Hw ([], [])) as H.
  unfold build_registry in Hrun.
  destruct (forallb (has_explanation E) codes); [reflexivity|].
  rewrite H in Hrun. discriminate Hrun.
Qed.

Lemma last_binding_in (l : pydict) (k v : pyval) :
  last_binding l k = Some v -> exists k', In (k', v) l /\ py_eq k k' = true.
Proof.
  induction l as [|[k0 v0] l IH]; simpl; [discriminate|].
  destruct (last_binding l k) as [v'|].
  - intros [= <-]. destruct IH as (k' & Hin & Heq); [reflexivity|].
    exists k'. auto.
  - destruct (py_eq k k0) eqn:E; [|discriminate].
    intros [= <-]. exists k0. auto.
Qed.

Lemma code_insertions_in (codes : pydict) (k name : pyval) :
  In (k, name) (code_insertions codes) -> exists c, In (name, c) codes.
Proof.
  unfold code_insertions. rewrite in_flat_map.
  intros ([n c] & Hin & Hk). simpl in Hk.
  destruct Hk as [[= _ <-]|[[= _ <-]|[]]]; now exists c.
Qed.

Lemma last_binding_insertions_str (codes : pydict) (v : Z) :
  Forall well_declared codes ->
  last_binding (code_insertions codes) (PStr (str_of_int v))
  = last_binding (code_insertions codes) (PInt v).
Proof.
  induction 1 as [|item codes (n & c & -> & _) _ IH]; [reflexivity|].
  cbn [code_insertions flat_map fst snd app py_str py_repr last_binding].
  change (flat_map _ codes) with (code_insertions codes). rewrite IH.
  destruct (last_binding (code_insertions codes) (PInt v)); [reflexivity|].
  cbn [py_eq].
  destruct (Z.eqb_spec v c) as [->|Hne].
  - now rewrite String.eqb_refl.
  - destruct (String.eqb_spec (str_of_int v) (str_of_int c)) as [He|_];
      [|reflexivity].
    now apply str_of_int_inj in He.
Qed.

(** X11.  On any declarations for which construction completes, a declared
    integer and its string are explained by the same line, which carries
    the name declared last with that value and its explanation: the
    assertion of the loop rules out a [KeyError]. *)
Theorem explain_in_declared_value
        (codes E signals : pydict) (st : pydict * pydict)
        (value : Z) (name : pyval) :
  Forall well_declared codes ->
  build_registry codes E = Ok st ->
  last_binding (code_insertions codes) (PInt value) = Some name ->
  exists explanation,
    dict_find E name = Some explanation /\
    explain_in E (mkModule (fst st) (snd st) signals) (PInt value)
    = Ok ("EXIT - " ++ py_str name ++ "[" ++ str_of_int value ++ "]: "
            ++ py_str explanation) /\
    explain_in E (mkModule (fst st) (snd st) signals)
               (PStr (str_of_int value))
    = explain_in E (mkModule (fst st) (snd st) signals) (PInt value).
Proof.
  intros Hw Hrun Hl.
  assert (He : exists explanation, dict_find E name = Some explanation).
  { destruct (last_binding_in _ _ _ Hl) as (k & Hin & _).
    destruct (code_insertions_in _ _ _ Hin) as [c Hc].
    pose proof (build_registry_explained _ _ _ Hw Hrun) as Hall.
    rewrite forallb_forall in Hall. specialize (Hall _ Hc).
    unfold has_explanation in Hall. simpl in Hall.
    destruct (dict_find E name) as [e|]; [now exists e | discriminate]. }
  destruct He as [explanation He]. exists explanation.
  assert (Hname : hashable name = true).
  { destruct (last_binding_in _ _ _ Hl) as (k & Hin & _).
    destruct (code_insertions_in _ _ _ Hin) as [c Hc].
    rewrite Forall_forall in Hw.
    destruct (Hw _ Hc) as (n & z & [= -> _] & _). reflexivity. }
  assert (Hint :
            explain_in E (mkModule (fst st) (snd st) signals) (PInt value)
            = Ok ("EXIT - " ++ py_str name ++ "[" ++ str_of_int value ++ "]: "
                    ++ py_str explanation)).
  { rewrite (explain_in_value_first _ _ _ name); cbn [CODE_TO_NAME];
      [|reflexivity
       |now rewrite (proj2 (build_registry_lookup codes E st Hw Hrun (PInt value) eq_refl))].
    unfold dict_getitem. now rewrite Hname, He. }
  split; [exact He|]. split; [exact Hint|].
  rewrite Hint.
  rewrite (explain_in_value_first _ _ _ name); cbn [CODE_TO_NAME];
    [|reflexivity
     |rewrite (proj2 (build_registry_lookup codes E st Hw Hrun (PStr (str_of_int value)) eq_refl));
      now rewrite last_binding_insertions_str].
  unfold dict_getitem. now rewrite Hname, He.
Qed.

(** X12.  On any declarations for which construction completes and whose
    names are none the module uses for itself, a declared name that is not
    the string of a declared value is explained with the value of its last
    declaration. *)
Theorem explain_in_declared_name
        (codes E signals : pydict) (st : pydict * pydict)
        (name : string) (value : pyval) :
  Forall safely_declared codes ->
  build_registry codes E = Ok st ->
  last_binding codes (PStr name) = Some value ->
  last_binding (code_insertions codes) (PStr name) = None ->
  exists explanation,
    dict_find E (PStr name) = Some explanation /\
    explain_in E (mkModule (fst st) (snd st) signals) (PStr name)
    = Ok ("EXIT - " ++ name ++ "[" ++ py_str value ++ "]: "
            ++ py_str explanation).
Proof.
  intros Hs Hrun Hl Hnone.
  assert (Hw : Forall well_declared codes)
    by (revert Hs; apply Forall_impl, safely_declared_well_declared).
  assert (He : exists explanation, dict_find E (PStr name) = Some explanation).
  { destruct (last_binding_in _ _ _ Hl) as (k & Hin & Heq).
    pose proof Hw as Hw'. rewrite Forall_forall in Hw'.
    destruct (Hw' _ Hin) as (n & z & [= -> ->] & _).
    simpl in Heq. apply String.eqb_eq in Heq. subst n.
    pose proof (build_registry_explained _ _ _ Hw Hrun) as Hall.
    rewrite forallb_forall in Hall. specialize (Hall _ Hin).
    unfold has_explanation in Hall. simpl in Hall.
    destruct (dict_find E (PStr name)) as [e|]; [now exists e | discriminate]. }
  destruct He as [explanation He]. exists explanation.
  split; [exact He|].
  rewrite explain_in_name_second; cbn [CODE_TO_NAME module_globals];
    [|reflexivity
     |now rewrite (proj2 (build_registry_lookup codes E st Hw Hrun (PStr name) eq_refl))
     |now rewrite He].
  unfold dict_getitem. cbn [hashable].
  rewrite (proj1 (build_registry_lookup codes E st Hw Hrun (PStr name) eq_refl)).
  now rewrite Hl, He.
Qed.

Lemma explain_in_declared_value_witness :
  exists explanation,
    dict_find [(PStr "FIRST", PStr "one"); (PStr "SECOND", PStr "two")]
              (PStr "SECOND") = Some explanation /\
    explain_in [(PStr "FIRST", PStr "one"); (PStr "SECOND", PStr "two")]
      (mkModule [(PStr "FIRST", PInt 1); (PStr "SECOND", PInt 1)]
                [(PInt 1, PStr "SECOND"); (PStr "1", PStr "SECOND")] [])
      (PInt 1)
    = Ok ("EXIT - " ++ "SECOND" ++ "[" ++ str_of_int 1 ++ "]: "
            ++ py_str explanation) /\
    explain_in [(PStr "FIRST", PStr "one"); (PStr "SECOND", PStr "two")]
      (mkModule [(PStr "FIRST", PInt 1); (PStr "SECOND", PInt 1)]
                [(PInt 1, PStr "SECOND"); (PStr "1", PStr "SECOND")] [])
      (PStr (str_of_int 1))
    = explain_in [(PStr "FIRST", PStr "one"); (PStr "SECOND", PStr "two")]
        (mkModule [(PStr "FIRST", PInt 1); (PStr "SECOND", PInt 1)]
                  [(PInt 1, PStr "SECOND"); (PStr "1", PStr "SECOND")] [])
        (PInt 1).
Proof.
  apply (explain_in_declared_value
           [(PStr "FIRST", PInt 1); (PStr "SECOND", PInt 1)]
           [(PStr "FIRST", PStr "one"); (PStr "SECOND", PStr "two")] []
           ([(PStr "FIRST", PInt 1); (PStr "SECOND", PInt 1)],
            [(PInt 1, PStr "SECOND"); (PStr "1", PStr "SECOND")])
           1 (PStr "SECOND")).
  - well_declared_list.
  - reflexivity.
  - reflexivity.
Defined.

Lemma explain_in_declared_name_witness :
  exists explanation,
    dict_find [(PStr "FIRST", PStr "one"); (PStr "SECOND", PStr "two")]
              (PStr "FIRST") = Some explanation /\
    explain_in [(PStr "FIRST", PStr "one"); (PStr "SECOND", PStr "two")]
      (mkModule [(PStr "FIRST", PInt 1); (PStr "SECOND", PInt 1)]
                [(PInt 1, PStr "SECOND"); (PStr "1", PStr "SECOND")] [])
      (PStr "FIRST")
    = Ok ("EXIT - " ++ "FIRST" ++ "[" ++ py_str (PInt 1) ++ "]: "
            ++ py_str explanation).
Proof.
  apply (explain_in_declared_name
           [(PStr "FIRST", PInt 1); (PStr "SECOND", PInt 1)]
           [(PStr "FIRST", PStr "one"); (PStr "SECOND", PStr "two")] []
           ([(PStr "FIRST", PInt 1); (PStr "SECOND", PInt 1)],
            [(PInt 1, PStr "SECOND"); (PStr "1", PStr "SECOND")])
           "FIRST" (PInt 1)).
  - safely_declared_list.
  - reflexivity.
  - reflexivity.
  - reflexivity.
Defined.

(** *** The two classifications together *)

(** X13.  Whatever [is_memory_error] accepts, [explain] explains as one of
    the memory error codes. *)
Theorem is_memory_error_explained (x : pyval) :
  is_memory_error x = Ok true ->
  exists line,
    explain x = Ok line /\ str_contains "_MEMORY_ERROR[" line = true.
Proof.
  rewrite is_memory_error_eval. intros [= H].
  apply memory_error_forms_eq in H. destruct H as (k & Hk & Heq).
  simpl in Hk. run_import.
  repeat (destruct Hk as [<-|Hk];
          [first [ apply py_eq_str_inv in Heq; subst x;
                   eexists; vm_compute; split; reflexivity
                 | apply py_eq_int_inv in Heq;
                   destruct Heq as [->|[([|] & -> & Hb)|(f & -> & Hf)]];
                   first [ discriminate Hb
                         | float_at Hf;
                           eexists; vm_compute; split; reflexivity
                         | eexists; vm_compute; split; reflexivity ] ]|]).
  contradiction.
Qed.

Lemma is_memory_error_explained_witness :
  exists line,
    explain (PInt 33) = Ok line /\ str_contains "_MEMORY_ERROR[" line = true.
Proof. apply (is_memory_error_explained (PInt 33)). reflexivity. Defined.

(** *** The entries of the signal table *)

(** X14.  For every signal number from 1 to 31 the line of
    [explain_signal] names a SIG... signal, shows that very number in the
    brackets, and keeps nothing of the comment marks of the text it was
    read from. *)
Theorem explain_signal_entries (z : Z) :
  1 <= z <= 31 ->
  exists line,
    explain_signal (PInt z) = Ok line /\
    startswith line "EXIT - Killed by UNIX signal SIG" = true /\
    str_contains ("[" ++ str_of_int z ++ "]: '") line = true /\
    str_contains "/*" line = false /\
    str_contains "*/" line = false.
Proof.
  intros Hz. apply signal_numbers_range in Hz. vm_compute in Hz. run_import.
  repeat (destruct Hz as [<-|Hz]; [eexists; vm_compute; repeat split|]).
  contradiction.
Qed.

Lemma explain_signal_entries_witness :
  exists line,
    explain_signal (PInt 15) = Ok line /\
    startswith line "EXIT - Killed by UNIX signal SIG" = true /\
    str_contains ("[" ++ str_of_int 15 ++ "]: '") line = true /\
    str_contains "/*" line = false /\
    str_contains "*/" line = false.
Proof. apply (explain_signal_entries 15). lia. Defined.
